(** * WaterButler storage providers: Box and OwnCloud

    A shallow embedding of [waterbutler/providers/box/provider.py] and
    [waterbutler/providers/owncloud/provider.py].

    Coroutines are modelled in a small monad that threads the state of the
    remote backend, records every HTTP exchange that is issued and carries
    Python exceptions as values.  The parts of WaterButler that the two
    providers import but that live in other files (the transport behind
    [make_request], the metadata serializers, the path base class, the
    multipart encoder, the XML parser) are gathered in the class
    [Collaborators]; every statement below holds for any implementation of
    them. *)

From Stdlib Require Import ZArith String Ascii List Bool Lia.
From stdpp Require Import base option list strings gmap pretty.

Set Warnings "-register-all".

Local Open Scope Z_scope.
Local Open Scope string_scope.

(** ** Python values *)

(** Decoded JSON, which is also the shape of every serialized metadata
    record (a [dict]) and of a folder listing (a [list]).  Objects keep their
    keys in insertion order, as a Python [dict] does. *)
Inductive Json : Type :=
| JNull
| JBool (b : bool)
| JNum (n : Z)
| JStr (s : string)
| JArr (items : list Json)
| JObj (fields : list (string * Json)).

(** The exception classes that can escape a provider.  The first six are
    WaterButler's own ([waterbutler.core.exceptions]); the others are the
    built-in faults raised by indexing, iteration and attribute access. *)
Inductive ErrKind : Type :=
| InvalidPathError
| MetadataError
| DownloadError
| UploadError
| DeleteError
| RevisionsError
| KeyError
| IndexError
| TypeError
| AttributeError
| ValueError.

#[global] Instance ErrKind_eq_dec : EqDecision ErrKind.
Proof. solve_decision. Defined.

(** An exception value: its class and the [code] it carries, when it was
    given one. *)
Record Exn : Type := mkExn { ekind : ErrKind; ecode : option Z }.

#[global] Instance Exn_eq_dec : EqDecision Exn.
Proof. solve_decision. Defined.

Inductive Result (A : Type) : Type :=
| Ok (a : A)
| Raise (e : Exn).
Arguments Ok {A} a.
Arguments Raise {A} e.

Definition rbind {A B} (r : Result A) (k : A -> Result B) : Result B :=
  match r with
  | Ok a => k a
  | Raise e => Raise e
  end.

(** Truthiness, as tested by [if data:]. *)
Definition truthy (v : Json) : bool :=
  match v with
  | JNull => false
  | JBool b => b
  | JNum n => negb (Z.eqb n 0)
  | JStr s => negb (String.eqb s "")
  | JArr l => match l with [] => false | _ => true end
  | JObj f => match f with [] => false | _ => true end
  end.

Fixpoint assoc_get {V} (k : string) (l : list (string * V)) : option V :=
  match l with
  | [] => None
  | (k', v) :: l' => if String.eqb k k' then Some v else assoc_get k l'
  end.

(** [d[k] = v] on a dict: an existing key keeps its place. *)
Fixpoint assoc_set {V} (k : string) (v : V) (l : list (string * V))
  : list (string * V) :=
  match l with
  | [] => [(k, v)]
  | (k', v') :: l' =>
      if String.eqb k k' then (k, v) :: l' else (k', v') :: assoc_set k v l'
  end.

(** [v[key]] with a string key. *)
Definition getitem (v : Json) (key : string) : Result Json :=
  match v with
  | JObj f =>
      match assoc_get key f with
      | Some x => Ok x
      | None => Raise (mkExn KeyError None)
      end
  | _ => Raise (mkExn TypeError None)
  end.

Definition single (c : ascii) : string := String c EmptyString.

(** [v[0]]: the first element of a list or the first character of a string;
    a dict decoded from JSON has string keys only. *)
Definition getfirst (v : Json) : Result Json :=
  match v with
  | JArr (x :: _) => Ok x
  | JArr [] => Raise (mkExn IndexError None)
  | JStr (String c _) => Ok (JStr (single c))
  | JStr EmptyString => Raise (mkExn IndexError None)
  | JObj _ => Raise (mkExn KeyError None)
  | _ => Raise (mkExn TypeError None)
  end.

(** [v[key] = x] with a string key: only a dict supports it. *)
Definition setitem (v : Json) (key : string) (x : Json) : Result Json :=
  match v with
  | JObj f => Ok (JObj (assoc_set key x f))
  | _ => Raise (mkExn TypeError None)
  end.

Fixpoint chars (s : string) : list Json :=
  match s with
  | EmptyString => []
  | String c s' => JStr (single c) :: chars s'
  end.

(** [for item in v]: a list yields its elements, a dict its keys, a string
    its characters; nothing else is iterable. *)
Definition py_iter (v : Json) : Result (list Json) :=
  match v with
  | JArr l => Ok l
  | JObj f => Ok (map (fun kv => JStr (fst kv)) f)
  | JStr s => Ok (chars s)
  | _ => Raise (mkExn TypeError None)
  end.

(** ** Strings *)

Definition slash : ascii := "/"%char.

(** [s.split('/')], as a non-empty list: head and tail. *)
Fixpoint split_slash (s : string) : string * list string :=
  match s with
  | EmptyString => (EmptyString, [])
  | String c s' =>
      let '(h, t) := split_slash s' in
      if Ascii.eqb c slash then (EmptyString, h :: t) else (String c h, t)
  end.

Definition split (s : string) : list string :=
  let '(h, t) := split_slash s in h :: t.

Fixpoint endswith_slash (s : string) : bool :=
  match s with
  | EmptyString => false
  | String c EmptyString => Ascii.eqb c slash
  | String _ s' => endswith_slash s'
  end.

Definition startswith_slash (s : string) : bool :=
  match s with
  | String c _ => Ascii.eqb c slash
  | EmptyString => false
  end.

(** [os.path.join(a, b)] of [posixpath]. *)
Definition os_path_join (a b : string) : string :=
  if startswith_slash b then b
  else if String.eqb a "" || endswith_slash a then a +:+ b
  else a +:+ "/" +:+ b.

(** [str(n)] for an [int] or [None]. *)
Definition py_str (n : option Z) : string :=
  match n with
  | Some z => pretty z
  | None => "None"
  end.

(** ** HTTP exchanges *)

Inductive Method : Type := GET | POST | PUT | DELETE | PROPFIND.

#[global] Instance Method_eq_dec : EqDecision Method.
Proof. solve_decision. Defined.

(** A URL is either a string the provider concatenated itself, or the
    arguments it handed to [build_url(base, *segments, **query)]. *)
Inductive Url : Type :=
| UrlStr (s : string)
| UrlBuilt (base : string) (segments : list string)
           (query : list (string * string)).

#[global] Instance Url_eq_dec : EqDecision Url.
Proof. solve_decision. Defined.

(** The stream handed to [upload]: its [size] attribute and its bytes. *)
Record Stream : Type := mkStream
  { stream_size : option Z; stream_content : string }.

#[global] Instance Stream_eq_dec : EqDecision Stream.
Proof. solve_decision. Defined.

Record Request : Type := mkRequest
  { method : Method;
    url : Url;
    headers : list (string * string);
    data : option Stream }.

#[global] Instance Request_eq_dec : EqDecision Request.
Proof. solve_decision. Defined.

(** A response: [resp.status], what [resp.json()] decodes ([None] when the
    body is not JSON) and what [resp.read()] returns. *)
Record Response : Type := mkResponse
  { status : Z; json_body : option Json; raw_body : string }.

(** What [download] returns: [streams.ResponseStreamReader(resp)]. *)
Inductive StreamReader : Type :=
| ResponseStreamReader (resp : Response).

(** The triple returned by [box_utils.make_upload_data]. *)
Record UploadData : Type := mkUploadData
  { ud_stream : Stream; ud_boundary : string; ud_size : Z }.

(** An [xml.etree.ElementTree.Element]: tag, text and child elements. *)
Inductive Element : Type :=
| Elem (tag : string) (text : option string) (children : list Element).

Definition etag (e : Element) : string := let 'Elem t _ _ := e in t.
Definition etext (e : Element) : option string := let 'Elem _ x _ := e in x.
Definition echildren (e : Element) : list Element :=
  let 'Elem _ _ c := e in c.

(** ** The collaborators that are not part of the two provider files *)

Class Collaborators : Type :=
  { (** the state of the remote service and of the connection to it *)
    World : Type;
    (** the transport: one request, one response *)
    request : World -> Request -> Response * World;
    (** [WaterButlerPath]: the validation done by the base constructor, and
        the [name] and [path] attributes it computes *)
    valid_path : string -> bool;
    path_name : string -> string;
    path_render : bool -> bool -> string -> string;
    (** [Box*Metadata(raw, folder).serialized()] and
        [BoxRevision(raw).serialized()] *)
    BoxFileMetadata : Json -> string -> Result Json;
    BoxFolderMetadata : Json -> string -> Result Json;
    BoxRevision : Json -> Result Json;
    (** [OwnCloudFileMetadata(path, attrs).serialized()] *)
    OwnCloudFileMetadata : string -> gmap string (option string) -> Result Json;
    (** [box_utils.make_upload_data(stream, parent_id=, file=)] *)
    make_upload_data : Stream -> string -> string -> Result UploadData;
    (** [ElementTree.fromstring] and [base64.b64encode] *)
    fromstring : string -> Result Element;
    b64encode : string -> string }.

(** ** The coroutine monad *)

Section Monad.
Context `{Collaborators}.

(** Running a coroutine from a backend state gives its result (a value or
    a raised exception), the backend state it leaves, and the requests it
    issued, oldest first. *)
Record Outcome (A : Type) : Type := mkOutcome
  { result : Result A; final : World; issued : list Request }.
Global Arguments mkOutcome {A} _ _ _.
Global Arguments result {A} _.
Global Arguments final {A} _.
Global Arguments issued {A} _.

Definition M (A : Type) : Type := World -> Outcome A.

Definition ret {A} (a : A) : M A := fun w => mkOutcome (Ok a) w [].

Definition raise {A} (e : Exn) : M A := fun w => mkOutcome (Raise e) w [].

Definition lift {A} (r : Result A) : M A := fun w => mkOutcome r w [].

Definition bind {A B} (m : M A) (k : A -> M B) : M B :=
  fun w =>
    let o := m w in
    match result o with
    | Ok a =>
        let o' := k a (final o) in
        mkOutcome (result o') (final o') (issued o ++ issued o')
    | Raise e => mkOutcome (Raise e) (final o) (issued o)
    end.

(** [try: x = yield from m], with the exception kept as a value. *)
Definition attempt {A} (m : M A) : M (Result A) :=
  fun w => let o := m w in mkOutcome (Ok (result o)) (final o) (issued o).

(** Modelled from the spec: [BaseProvider.make_request], which is defined in
    [waterbutler.core.provider].  It sends one request carrying the
    provider's default headers and the call's own, and "any status outside
    an operation's declared success set raises the operation's error kind
    immediately; no automatic retries are performed"; the error "carries the
    triggering HTTP status code". *)
Definition make_request (default_headers : list (string * string))
    (meth : Method) (u : Url) (hdrs : list (string * string))
    (body : option Stream) (expects : list Z) (throws : ErrKind)
  : M Response :=
  fun w =>
    let req := mkRequest meth u (default_headers ++ hdrs) body in
    let '(resp, w') := request w req in
    if bool_decide (status resp ∈ expects)
    then mkOutcome (Ok resp) w' [req]
    else mkOutcome (Raise (mkExn throws (Some (status resp)))) w' [req].

(** [yield from resp.json()] *)
Definition resp_json (resp : Response) : M Json :=
  match json_body resp with
  | Some j => ret j
  | None => raise (mkExn ValueError None)
  end.

(** [yield from resp.read()] *)
Definition resp_read (resp : Response) : M string := ret (raw_body resp).

End Monad.

Notation "x <- m ;; k" := (bind m (fun x => k))
  (at level 100, m at next level, right associativity).
Notation "m ;;; k" := (bind m (fun _ => k))
  (at level 100, right associativity).

(** ** Paths *)

Section Paths.
Context `{Collaborators}.

(** Modelled from the spec: [utils.WaterButlerPath], the base class of both
    path types, defined in [waterbutler.core.utils].  It keeps the "raw
    original string"; construction "fails with [InvalidPathError] if the
    string is empty or violates the backend's addressing rules"; "a path is
    either a file (no trailing separator) or a directory (trailing
    separator)". *)
Record WaterButlerPath : Type := mkWaterButlerPath
  { _orig_path : string; _prefix : bool; _suffix : bool }.

Definition WaterButlerPath_init (path : string) (prefix suffix : bool)
  : Result WaterButlerPath :=
  if String.eqb path "" then Raise (mkExn InvalidPathError None)
  else if valid_path path then Ok (mkWaterButlerPath path prefix suffix)
  else Raise (mkExn InvalidPathError None).

Definition is_dir (p : WaterButlerPath) : bool := endswith_slash (_orig_path p).
Definition is_file (p : WaterButlerPath) : bool := negb (is_dir p).
Definition name (p : WaterButlerPath) : string := path_name (_orig_path p).
(** The attribute [p.path] (named apart from the [path] arguments below). *)
Definition path_attr (p : WaterButlerPath) : string :=
  path_render (_prefix p) (_suffix p) (_orig_path p).
Definition str (p : WaterButlerPath) : string := _orig_path p.

(** [class BoxPath(utils.WaterButlerPath)]: the base path and the [_id]
    attribute that [__init__] adds. *)
Record BoxPath : Type := mkBoxPath { box_base : WaterButlerPath; _id : string }.

(** [l[1]] *)
Definition second (l : list string) : Result string :=
  match l with
  | _ :: x :: _ => Ok x
  | _ => Raise (mkExn IndexError None)
  end.

Definition BoxPath_init (path : string) : Result BoxPath :=
  rbind (WaterButlerPath_init path false false) (fun base =>
    if negb (String.eqb path "/")
    then rbind (second (split path)) (fun i => Ok (mkBoxPath base i))
    else Ok (mkBoxPath base path)).

(** [class OwnCloudPath(utils.WaterButlerPath)], with its defaults
    [prefix=False, suffix=True]. *)
Definition OwnCloudPath_init (path : string) : Result WaterButlerPath :=
  WaterButlerPath_init path false true.

End Paths.

(** ** The Box provider *)

Module Box.
Section Provider.
Context `{Collaborators}.

(** [BoxProvider]: [self.token], [self.folder] and the two base URLs of
    [waterbutler.providers.box.settings]. *)
Record BoxProvider : Type := mkBoxProvider
  { token : string;
    folder : string;
    BASE_URL : string;
    BASE_UPLOAD_URL : string }.

Variable self : BoxProvider.

Definition default_headers : list (string * string) :=
  [("Authorization", "Bearer " +:+ token self)].

Definition build_url (segments : list string) (query : list (string * string))
  : Url :=
  UrlBuilt (BASE_URL self) segments query.

Definition _build_upload_url (segments : list string)
    (query : list (string * string)) : Url :=
  UrlBuilt (BASE_UPLOAD_URL self) segments query.

Definition download (path : string) (revision : option string)
  : M StreamReader :=
  p <- lift (BoxPath_init path) ;;
  let current :=
    resp <- make_request default_headers GET
              (build_url ["files"; _id p; "content"] [])
              [] None [200] DownloadError ;;
    ret (ResponseStreamReader resp) in
  match revision with
  | Some r =>
      if negb (String.eqb r "") && negb (String.eqb r (_id p)) then
        resp <- make_request default_headers GET
                  (build_url ["files"; _id p; "content"] [("version", r)])
                  [] None [200] DownloadError ;;
        ret (ResponseStreamReader resp)
      else current
  | None => current
  end.

Definition _get_file_meta (p : BoxPath) : M Json :=
  resp <- make_request default_headers GET
            (build_url ["files"; _id p] [])
            [] None [200] MetadataError ;;
  data <- resp_json resp ;;
  if truthy data then lift (BoxFileMetadata data (folder self))
  else raise (mkExn MetadataError None).

(** [item['type'] == 'folder'] *)
Definition is_folder_tag (v : Json) : bool :=
  match v with
  | JStr s => String.eqb s "folder"
  | _ => false
  end.

(** The loop of [_get_folder_meta], one serialized record per entry. *)
Fixpoint folder_entries (items : list Json) : Result (list Json) :=
  match items with
  | [] => Ok []
  | item :: rest =>
      rbind (getitem item "type") (fun ty =>
      rbind (if is_folder_tag ty
             then BoxFolderMetadata item (folder self)
             else BoxFileMetadata item (folder self)) (fun m =>
      rbind (folder_entries rest) (fun ms => Ok (m :: ms))))
  end.

Definition _get_folder_meta (p : BoxPath) : M Json :=
  resp <- make_request default_headers GET
            (build_url ["folders"; folder self; "items"] [])
            [] None [200] MetadataError ;;
  data <- resp_json resp ;;
  entries <- lift (getitem data "entries") ;;
  items <- lift (py_iter entries) ;;
  ms <- lift (folder_entries items) ;;
  ret (JArr ms).

(** A file path gives one record (a dict), a directory path a list. *)
Definition metadata (path : string) : M Json :=
  p <- lift (BoxPath_init path) ;;
  if is_file (box_base p) then _get_file_meta p else _get_folder_meta p.

Definition upload_headers (ud : UploadData) : list (string * string) :=
  [("Content-Length", py_str (Some (ud_size ud)));
   ("Content-Type", "multipart/form-data; boundary=" +:+ ud_boundary ud)].

Definition _upload_create (stream : Stream) (p : BoxPath) : M Json :=
  ud <- lift (make_upload_data stream (_id p) (name (box_base p))) ;;
  resp <- make_request default_headers POST
            (_build_upload_url ["files"; "content"] [])
            (upload_headers ud) (Some (ud_stream ud))
            [200; 201] UploadError ;;
  resp_json resp.

(** [BoxPath(v)] for a value taken out of a dict: only a string is a path.
    Any other value makes the constructor fail, at the latest where it
    calls [path.split], which such a value does not have; the properties
    below hold whatever exception that is. *)
Definition BoxPath_of (v : Json) : Result BoxPath :=
  match v with
  | JStr s => BoxPath_init s
  | _ => Raise (mkExn AttributeError None)
  end.

Definition _upload_update (stream : Stream) (p : BoxPath) (meta : Json)
  : M Json :=
  mp <- lift (getitem meta "path") ;;
  meta_path <- lift (BoxPath_of mp) ;;
  ud <- lift (make_upload_data stream (_id p) (name (box_base p))) ;;
  resp <- make_request default_headers POST
            (_build_upload_url ["files"; _id meta_path; "content"] [])
            (upload_headers ud) (Some (ud_stream ud))
            [200; 201] UploadError ;;
  resp_json resp.

Definition upload (stream : Stream) (path : string) : M (Json * bool) :=
  p <- lift (BoxPath_init (os_path_join (folder self) path)) ;;
  probe <- attempt (metadata (str (box_base p))) ;;
  dc <- match probe with
        | Raise e =>
            if decide (ekind e = MetadataError)
            then data <- _upload_create stream p ;; ret (data, true)
            else raise e
        | Ok meta =>
            data <- _upload_update stream p meta ;; ret (data, false)
        end ;;
  entries <- lift (getitem (fst dc) "entries") ;;
  entry <- lift (getfirst entries) ;;
  m <- lift (BoxFileMetadata entry (folder self)) ;;
  ret (m, snd dc).

Definition delete (path : string) : M unit :=
  p <- lift (BoxPath_init path) ;;
  metadata (str (box_base p)) ;;;
  make_request default_headers DELETE
    (build_url ["files"; _id p] [])
    [] None [204] DeleteError ;;;
  ret tt.

(** The loop of [revisions]: [idx] is the last index handed out. *)
Fixpoint older_revisions (idx : Z) (items : list Json) : Result (list Json) :=
  match items with
  | [] => Ok []
  | item :: rest =>
      let idx := idx + 1 in
      rbind (setitem item "revision" (JNum idx)) (fun item' =>
      rbind (BoxRevision item') (fun r =>
      rbind (older_revisions idx rest) (fun rs => Ok (r :: rs))))
  end.

Definition revisions (path : string) : M (list Json) :=
  p <- lift (BoxPath_init path) ;;
  response <- make_request default_headers GET
                (build_url ["files"; _id p; "versions"] [])
                [] None [200] RevisionsError ;;
  data <- resp_json response ;;
  let idx := 1 in
  curr <- metadata (str (box_base p)) ;;
  curr' <- lift (setitem curr "revision" (JNum idx)) ;;
  r <- lift (BoxRevision curr') ;;
  entries <- lift (getitem data "entries") ;;
  items <- lift (py_iter entries) ;;
  rs <- lift (older_revisions idx items) ;;
  ret (r :: rs).

End Provider.
End Box.

(** ** The OwnCloud provider *)

Module OwnCloud.
Section Provider.
Context `{Collaborators}.

Record OwnCloudProvider : Type := mkOwnCloudProvider
  { auth : string; webdav_url : string }.

Definition _DAV_URL : string := "remote.php/webdav/".

(** [__init__]: the credentials are encoded once. *)
Definition init (username password base_url : string) : OwnCloudProvider :=
  {| auth := b64encode (username +:+ ":" +:+ password);
     webdav_url := base_url +:+ _DAV_URL |}.

Variable self : OwnCloudProvider.

Definition default_headers : list (string * string) :=
  [("Authorization", "Basic " +:+ auth self)].

(** [tree[0]] *)
Definition first_child (e : Element) : Result Element :=
  match echildren e with
  | c :: _ => Ok c
  | [] => Raise (mkExn IndexError None)
  end.

(** [e.find(tag)]: the first child whose tag is [tag], or [None]. *)
Definition find (e : Element) (t : string) : option Element :=
  List.find (fun c => String.eqb (etag c) t) (echildren e).

(** The loop [for attr in attrs: file_attrs[attr.tag] = attr.text]. *)
Definition collect (attrs : list Element) : gmap string (option string) :=
  foldl (fun file_attrs attr => <[etag attr := etext attr]> file_attrs) ∅ attrs.

(** The three lines that walk the parsed tree down to the property set. *)
Definition file_attrs_of (tree : Element)
  : Result (gmap string (option string)) :=
  rbind (first_child tree) (fun response =>
    match find response "{DAV:}propstat" with
    | None => Raise (mkExn AttributeError None)
    | Some propstat =>
        match find propstat "{DAV:}prop" with
        | None => Raise (mkExn TypeError None)
        | Some prop => Ok (collect (echildren prop))
        end
    end).

Definition _metadata_file (p : WaterButlerPath) : M Json :=
  let u := webdav_url self +:+ path_attr p in
  resp <- make_request default_headers PROPFIND (UrlStr u)
            [] None [207] MetadataError ;;
  data <- resp_read resp ;;
  tree <- lift (fromstring data) ;;
  file_attrs <- lift (file_attrs_of tree) ;;
  lift (OwnCloudFileMetadata (path_attr p) file_attrs).

(** The body is [pass]: the coroutine returns [None]. *)
Definition _metadata_folder (p : WaterButlerPath) : M (option Json) :=
  ret None.

Definition metadata (path : string) : M (option Json) :=
  p <- lift (OwnCloudPath_init path) ;;
  if is_dir p then _metadata_folder p
  else m <- _metadata_file p ;; ret (Some m).

(** The [print(url)] before the request writes to standard output only. *)
Definition download (path : string) : M StreamReader :=
  p <- lift (OwnCloudPath_init path) ;;
  if negb (is_file p) then raise (mkExn DownloadError (Some 400))
  else
    let u := webdav_url self +:+ path_attr p in
    resp <- make_request default_headers GET (UrlStr u)
              [] None [200] DownloadError ;;
    ret (ResponseStreamReader resp).

Definition upload (stream : Stream) (path : string) : M bool :=
  let u := webdav_url self +:+ path in
  make_request default_headers PUT (UrlStr u)
    [("Content-Length", py_str (stream_size stream))] (Some stream)
    [201] UploadError ;;;
  ret true.

Definition delete (path : string) : M bool :=
  let u := webdav_url self +:+ path in
  make_request default_headers DELETE (UrlStr u)
    [] None [204] DeleteError ;;;
  ret true.

End Provider.
End OwnCloud.

(** ** The provider contract, over both adapters *)

(** What a contract operation hands back to its caller: [None], a bool, a
    serialized record or listing, a pair, a list of records, or a stream. *)
Inductive PyVal : Type :=
| PyNone
| PyBool (b : bool)
| PyJson (j : Json)
| PyTuple (a b : PyVal)
| PyList (l : list Json)
| PyStream (s : StreamReader).

Section Contract.
Context `{Collaborators}.

Inductive Adapter : Type :=
| BoxAdapter (self : Box.BoxProvider)
| OwnCloudAdapter (self : OwnCloud.OwnCloudProvider).

Definition returning {A} (f : A -> PyVal) (m : M A) : M PyVal :=
  a <- m ;; ret (f a).

Definition adapter_upload (a : Adapter) (stream : Stream) (path : string)
  : M PyVal :=
  match a with
  | BoxAdapter self =>
      returning (fun mc => PyTuple (PyJson (fst mc)) (PyBool (snd mc)))
                (Box.upload self stream path)
  | OwnCloudAdapter self => returning PyBool (OwnCloud.upload self stream path)
  end.

Definition adapter_delete (a : Adapter) (path : string) : M PyVal :=
  match a with
  | BoxAdapter self => returning (fun _ => PyNone) (Box.delete self path)
  | OwnCloudAdapter self => returning PyBool (OwnCloud.delete self path)
  end.

(** A call of one of the five contract operations. *)
Inductive Call : Type :=
| CallMetadata (path : string)
| CallDownload (path : string) (revision : option string)
| CallUpload (stream : Stream) (path : string)
| CallDelete (path : string)
| CallRevisions (path : string).

(** The error kind of the operation's family. *)
Definition family (c : Call) : ErrKind :=
  match c with
  | CallMetadata _ => MetadataError
  | CallDownload _ _ => DownloadError
  | CallUpload _ _ => UploadError
  | CallDelete _ => DeleteError
  | CallRevisions _ => RevisionsError
  end.

(** The statuses the operation declares as success. *)
Definition success_set (a : Adapter) (c : Call) : list Z :=
  match a, c with
  | BoxAdapter _, CallMetadata _ => [200]
  | BoxAdapter _, CallDownload _ _ => [200]
  | BoxAdapter _, CallUpload _ _ => [200; 201]
  | BoxAdapter _, CallDelete _ => [204]
  | BoxAdapter _, CallRevisions _ => [200]
  | OwnCloudAdapter _, CallMetadata _ => [207]
  | OwnCloudAdapter _, CallDownload _ _ => [200]
  | OwnCloudAdapter _, CallUpload _ _ => [201]
  | OwnCloudAdapter _, CallDelete _ => [204]
  | OwnCloudAdapter _, CallRevisions _ => []
  end.

Definition of_option (o : option Json) : PyVal :=
  match o with
  | Some j => PyJson j
  | None => PyNone
  end.

(** The operations each provider file defines; the OwnCloud file defines no
    [revisions], and its [download] takes no revision. *)
Definition perform (a : Adapter) (c : Call) : option (M PyVal) :=
  match a, c with
  | BoxAdapter self, CallMetadata path =>
      Some (returning PyJson (Box.metadata self path))
  | BoxAdapter self, CallDownload path revision =>
      Some (returning PyStream (Box.download self path revision))
  | BoxAdapter self, CallRevisions path =>
      Some (returning PyList (Box.revisions self path))
  | OwnCloudAdapter self, CallMetadata path =>
      Some (returning of_option (OwnCloud.metadata self path))
  | OwnCloudAdapter self, CallDownload path _ =>
      Some (returning PyStream (OwnCloud.download self path))
  | OwnCloudAdapter self, CallRevisions _ => None
  | _, CallUpload stream path => Some (adapter_upload a stream path)
  | _, CallDelete path => Some (adapter_delete a path)
  end.

End Contract.

(** ** A replayed session

    A concrete set of collaborators used to run the providers on examples:
    the backend answers each request with the next response of a script
    (and with 404 once the script is exhausted). *)

Module Replay.

Definition not_found : Response := mkResponse 404 None "".

Definition replay (script : list Response) (req : Request)
  : Response * list Response :=
  match script with
  | r :: rest => (r, rest)
  | [] => (not_found, [])
  end.

Definition last_segment (s : string) : string :=
  List.last (split s) "".

Fixpoint drop_trailing_slash (s : string) : string :=
  match s with
  | EmptyString => EmptyString
  | String c EmptyString => if Ascii.eqb c slash then EmptyString else s
  | String c s' => String c (drop_trailing_slash s')
  end.

Definition drop_leading_slash (s : string) : string :=
  match s with
  | String c s' => if Ascii.eqb c slash then s' else s
  | EmptyString => EmptyString
  end.

Definition render (prefix suffix : bool) (s : string) : string :=
  let s := if prefix then s else drop_leading_slash s in
  if suffix then s else drop_trailing_slash s.

Definition as_string (v : Json) : Result string :=
  match v with
  | JStr s => Ok s
  | _ => Raise (mkExn TypeError None)
  end.

(** A Box item becomes a record whose path is [/<id>/<name>]. *)
Definition item_record (kind : string) (raw : Json) (folder : string)
  : Result Json :=
  rbind (getitem raw "id") (fun i =>
  rbind (as_string i) (fun i =>
  rbind (getitem raw "name") (fun n =>
  rbind (as_string n) (fun n =>
    Ok (JObj [("kind", JStr kind); ("name", JStr n);
              ("path", JStr ("/" +:+ i +:+ "/" +:+ n))]))))).

Definition revision_record (raw : Json) : Result Json :=
  rbind (getitem raw "revision") (fun r =>
    Ok (JObj [("revision", r); ("raw", raw)])).

Definition attr_json (x : option string) : Json :=
  match x with
  | Some s => JStr s
  | None => JNull
  end.

Definition file_record (path : string) (attrs : gmap string (option string))
  : Result Json :=
  Ok (JObj [("kind", JStr "file"); ("path", JStr path);
            ("size", from_option attr_json JNull
                       (attrs !! "{DAV:}getcontentlength"))]).

Definition encode (stream : Stream) (parent_id file : string)
  : Result UploadData :=
  match stream_size stream with
  | None => Raise (mkExn ValueError None)
  | Some n =>
      let preamble := "--b;parent_id=" +:+ parent_id +:+ ";file=" +:+ file +:+ ";" in
      let epilogue := ";--b--" in
      let total := n + Z.of_nat (String.length preamble)
                     + Z.of_nat (String.length epilogue) in
      Ok (mkUploadData
            (mkStream (Some total)
                      (preamble +:+ stream_content stream +:+ epilogue))
            "b" total)
  end.

Definition DAV (local : string) : string := "{DAV:}" +:+ local.

(** One PROPFIND answer with two property-status blocks. *)
Definition multistatus : Element :=
  Elem (DAV "multistatus") None
    [Elem (DAV "response") None
       [Elem (DAV "href") (Some "/remote.php/webdav/a.txt") [];
        Elem (DAV "propstat") None
          [Elem (DAV "prop") None
             [Elem (DAV "getcontentlength") (Some "5") [];
              Elem (DAV "getetag") (Some "abc") []];
           Elem (DAV "status") (Some "HTTP/1.1 200 OK") []];
        Elem (DAV "propstat") None
          [Elem (DAV "prop") None
             [Elem (DAV "quota") None []];
           Elem (DAV "status") (Some "HTTP/1.1 404 Not Found") []]]].

Definition parse (data : string) : Result Element :=
  if String.eqb data "<multistatus>" then Ok multistatus
  else Raise (mkExn ValueError None).

(** A backend that gives every request the same answer. *)
Definition always (code : Z) : Collaborators :=
  {| World := unit;
     request := fun _ _ => (mkResponse code None "", tt);
     valid_path := startswith_slash;
     path_name := last_segment;
     path_render := render;
     BoxFileMetadata := item_record "file";
     BoxFolderMetadata := item_record "folder";
     BoxRevision := revision_record;
     OwnCloudFileMetadata := file_record;
     make_upload_data := encode;
     fromstring := parse;
     b64encode := fun s => s |}.

(** The replayed session with a base class that accepts every non-empty
    string as a path. *)
Definition lenient : Collaborators :=
  {| World := list Response;
     request := replay;
     valid_path := fun _ => true;
     path_name := last_segment;
     path_render := render;
     BoxFileMetadata := item_record "file";
     BoxFolderMetadata := item_record "folder";
     BoxRevision := revision_record;
     OwnCloudFileMetadata := file_record;
     make_upload_data := encode;
     fromstring := parse;
     b64encode := fun s => s |}.

(** The replayed session with a parser that reads every body as a root
    element without children. *)
Definition childless : Collaborators :=
  {| World := list Response;
     request := replay;
     valid_path := startswith_slash;
     path_name := last_segment;
     path_render := render;
     BoxFileMetadata := item_record "file";
     BoxFolderMetadata := item_record "folder";
     BoxRevision := revision_record;
     OwnCloudFileMetadata := file_record;
     make_upload_data := encode;
     fromstring := fun _ => Ok (Elem "{DAV:}multistatus" None []);
     b64encode := fun s => s |}.

#[export] Instance session : Collaborators :=
  {| World := list Response;
     request := replay;
     valid_path := startswith_slash;
     path_name := last_segment;
     path_render := render;
     BoxFileMetadata := item_record "file";
     BoxFolderMetadata := item_record "folder";
     BoxRevision := revision_record;
     OwnCloudFileMetadata := file_record;
     make_upload_data := encode;
     fromstring := parse;
     b64encode := fun s => s |}.

Definition box : Box.BoxProvider :=
  Box.mkBoxProvider "secret" "/11446498" "https://api.box.com/2.0"
    "https://upload.box.com/api/2.0".

Definition owncloud : OwnCloud.OwnCloudProvider :=
  OwnCloud.init "user" "pass" "https://cloud.example.org/".

Definition five_bytes : Stream := mkStream (Some 5) "hello".

Definition answer (code : Z) : Response := mkResponse code None "".

Definition answer_json (code : Z) (j : Json) : Response :=
  mkResponse code (Some j) "".

Definition box_file (i n : string) : Json :=
  JObj [("type", JStr "file"); ("id", JStr i); ("name", JStr n)].

(** A version listing with two older versions, then the file itself. *)
Definition versions_script : list Response :=
  [answer_json 200
     (JObj [("entries", JArr [box_file "5" "a.txt"; box_file "4" "a.txt"])]);
   answer_json 200 (box_file "7" "a.txt")].

(** An account without version history: the listing is refused with 403,
    the file itself is there. *)
Definition unversioned_script : list Response :=
  [answer 403; answer_json 200 (box_file "7" "a.txt")].

(** An upload whose probe finds nothing, and one whose probe finds the
    file under the identifier 77. *)
Definition uploaded : Response :=
  answer_json 201 (JObj [("entries", JArr [box_file "77" "notes.txt"])]).

Definition create_script : list Response := [answer 404; uploaded].

Definition update_script : list Response :=
  [answer_json 200 (box_file "77" "notes.txt"); uploaded].

Definition five_bytes_encoded : UploadData :=
  mkUploadData
    (mkStream (Some 49) "--b;parent_id=11446498;file=notes.txt;hello;--b--")
    "b" 49.

Definition box_folder (i n : string) : Json :=
  JObj [("type", JStr "folder"); ("id", JStr i); ("name", JStr n)].

(** A folder listing with a folder and a file, and one whose second entry
    has no type. *)
Definition listing_script : list Response :=
  [answer_json 200
     (JObj [("entries", JArr [box_folder "3" "docs"; box_file "7" "a.txt"])])].

Definition untyped_listing_script : list Response :=
  [answer_json 200
     (JObj [("entries",
             JArr [box_folder "3" "docs"; JObj [("id", JStr "7")]])])].

End Replay.

(** ** Vocabulary of the statements *)

Fixpoint has_slash (s : string) : bool :=
  match s with
  | EmptyString => false
  | String c s' => Ascii.eqb c slash || has_slash s'
  end.

Section Requests.
Context `{Collaborators}.

(** The request for the content of the Box file [i], for one version or
    for the current content. *)
Definition content_request (self : Box.BoxProvider) (i : string)
    (query : list (string * string)) : Request :=
  mkRequest GET (Box.build_url self ["files"; i; "content"] query)
            (Box.default_headers self) None.

(** The children of an element that carry exactly the tag [t], in
    document order. *)
Definition tagged (t : string) (l : list Element) : list Element :=
  filter (fun c => etag c = t) l.

(** The property-discovery request for an OwnCloud path. *)
Definition propfind_request (self : OwnCloud.OwnCloudProvider)
    (p : WaterButlerPath) : Request :=
  mkRequest PROPFIND (UrlStr (OwnCloud.webdav_url self +:+ path_attr p))
            (OwnCloud.default_headers self) None.

(** The requests of the Box provider, by the file identifier they name. *)
Definition box_request (self : Box.BoxProvider) (meth : Method)
    (segments : list string) : Request :=
  mkRequest meth (Box.build_url self segments []) (Box.default_headers self)
            None.

Definition versions_request (self : Box.BoxProvider) (i : string) : Request :=
  box_request self GET ["files"; i; "versions"].

Definition file_request (self : Box.BoxProvider) (i : string) : Request :=
  box_request self GET ["files"; i].

Definition delete_request (self : Box.BoxProvider) (i : string) : Request :=
  box_request self DELETE ["files"; i].

Definition folder_request (self : Box.BoxProvider) : Request :=
  box_request self GET ["folders"; Box.folder self; "items"].

(** The single request behind Box's [metadata]: the file named by the
    token for a file path, the listing of the configured folder for a
    directory. *)
Definition metadata_request (self : Box.BoxProvider) (p : BoxPath) : Request :=
  if is_file (box_base p) then file_request self (_id p)
  else folder_request self.

(** The two multipart uploads: a create names no file, an update names the
    file [i] it replaces. *)
Definition create_request (self : Box.BoxProvider) (ud : UploadData)
  : Request :=
  mkRequest POST (Box._build_upload_url self ["files"; "content"] [])
            (Box.default_headers self ++ Box.upload_headers ud)
            (Some (ud_stream ud)).

Definition update_request (self : Box.BoxProvider) (i : string)
    (ud : UploadData) : Request :=
  mkRequest POST (Box._build_upload_url self ["files"; i; "content"] [])
            (Box.default_headers self ++ Box.upload_headers ud)
            (Some (ud_stream ud)).

(** A step that talks to nobody: it issues no request and leaves the
    backend as it found it. *)
Definition quiet {A} (m : M A) : Prop :=
  forall w, issued (m w) = [] /\ final (m w) = w.

(** The requests of the OwnCloud provider for a path given as a string. *)
Definition owncloud_request (self : OwnCloud.OwnCloudProvider)
    (meth : Method) (path : string) (hdrs : list (string * string))
    (body : option Stream) : Request :=
  mkRequest meth (UrlStr (OwnCloud.webdav_url self +:+ path))
            (OwnCloud.default_headers self ++ hdrs) body.

Definition owncloud_delete_request (self : OwnCloud.OwnCloudProvider)
    (path : string) : Request :=
  owncloud_request self DELETE path [] None.

Definition owncloud_put_request (self : OwnCloud.OwnCloudProvider)
    (stream : Stream) (path : string) : Request :=
  owncloud_request self PUT path
    [("Content-Length", py_str (stream_size stream))] (Some stream).

(** The claim on deletion read as a contract over both adapters: once
    [delete] has contacted the backend, the only way it fails is with
    [DeleteError]. *)
Definition delete_fails_with_DeleteError : Prop :=
  forall (C : Collaborators) (a : Adapter) (path : string) (w : World) e,
    result (adapter_delete a path w) = Raise e ->
    issued (adapter_delete a path w) <> [] ->
    ekind e = DeleteError.

(** The claim on the result of [upload] read as a contract over both
    adapters: what [upload] returns is a pair of a record and a flag. *)
Definition upload_returns_pair : Prop :=
  forall (C : Collaborators) (a : Adapter) (stream : Stream) (path : string)
         (w : World) (v : PyVal),
    result (adapter_upload a stream path w) = Ok v ->
    exists m created, v = PyTuple (PyJson m) (PyBool created).

(** The record that Box's [upload] returns is read off the backend's
    answer to the upload request. *)
Definition record_of_answer (self : Box.BoxProvider)
    (data m : Json) : Prop :=
  exists entries entry,
    getitem data "entries" = Ok entries
    /\ getfirst entries = Ok entry
    /\ BoxFileMetadata entry (Box.folder self) = Ok m.

Definition owncloud_get_request (self : OwnCloud.OwnCloudProvider)
    (p : WaterButlerPath) : Request :=
  mkRequest GET (UrlStr (OwnCloud.webdav_url self +:+ path_attr p))
            (OwnCloud.default_headers self) None.

(** The request of Box's [download]: the version is asked for when the
    revision is given, not empty, and not the path's token. *)
Definition download_request (self : Box.BoxProvider) (p : BoxPath)
    (revision : option string) : Request :=
  content_request self (_id p)
    match revision with
    | Some r =>
        if negb (String.eqb r "") && negb (String.eqb r (_id p))
        then [("version", r)] else []
    | None => []
    end.

(** The claim on unexpected statuses read as a contract over every
    operation of both adapters: against a backend that answers every
    request with one status outside the operation's success set, an
    operation that reaches the backend raises the error of its family. *)
Definition status_error_contract : Prop :=
  forall (C : Collaborators) (a : Adapter) (c : Call) (m : M PyVal)
         (w : World) (s : Z),
    perform a c = Some m ->
    s ∉ success_set a c ->
    (forall w' r, status (fst (request w' r)) = s) ->
    issued (m w) <> [] ->
    exists e, result (m w) = Raise e /\ ekind e = family c.

(** The run [o] ends at the request [req], sent in backend state [w] after
    the requests [before]: it raises the error [k] carrying the status of
    the answer, nothing is sent after [req], and the backend is left as that
    one exchange left it. *)
Definition stops_at {A} (o : Outcome A)
    (before : list Request) (w : World) (req : Request) (k : ErrKind)
  : Prop :=
  result o = Raise (mkExn k (Some (status (fst (request w req)))))
  /\ final o = snd (request w req)
  /\ issued o = (before ++ [req])%list.

(** The steps of Box's [upload] after the upload request: reading the
    first entry of the answer and serializing it. *)
Definition upload_tail (self : Box.BoxProvider) (dc : Json * bool)
  : M (Json * bool) :=
  entries <- lift (getitem (fst dc) "entries") ;;
  entry <- lift (getfirst entries) ;;
  m <- lift (BoxFileMetadata entry (Box.folder self)) ;;
  ret (m, snd dc).

(** The revision index a record carries. *)
Definition revision_of (v : Json) : Result Json := getitem v "revision".

(** Every request a coroutine issues satisfies [P], from whatever backend
    state it starts. *)
Definition sends {A} (P : Request -> Prop) (m : M A) : Prop :=
  forall w, Forall P (issued (m w)).

(** A coroutine issues at most [n] requests. *)
Definition at_most {A} (n : nat) (m : M A) : Prop :=
  forall w, (length (issued (m w)) <= n)%nat.

(** A request of the Box provider: it carries the bearer token as its
    first header and goes to one of the two configured base URLs. *)
Definition box_authorized (self : Box.BoxProvider) (req : Request) : Prop :=
  head (headers req) = Some ("Authorization", "Bearer " +:+ Box.token self)
  /\ exists segments query,
       url req = UrlBuilt (Box.BASE_URL self) segments query
       \/ url req = UrlBuilt (Box.BASE_UPLOAD_URL self) segments query.

(** A request of the OwnCloud provider: the method [meth], sent to the
    WebDAV root followed by [rest], with the encoded credentials as first
    header and [body] as body. *)
Definition owncloud_wire (self : OwnCloud.OwnCloudProvider)
    (meth : Method) (rest : string) (body : option Stream) (req : Request)
  : Prop :=
  method req = meth
  /\ url req = UrlStr (OwnCloud.webdav_url self +:+ rest)
  /\ head (headers req) = Some ("Authorization", "Basic " +:+ OwnCloud.auth self)
  /\ data req = body.

(** A GET without a body. *)
Definition get_only (req : Request) : Prop :=
  method req = GET /\ data req = None.

(** What Box's [upload] makes of the decoded answer to its upload request:
    [BoxFileMetadata(data['entries'][0], self.folder).serialized()]. *)
Definition first_entry_record (self : Box.BoxProvider) (data : Json)
  : Result Json :=
  rbind (getitem data "entries") (fun entries =>
  rbind (getfirst entries) (fun entry =>
    BoxFileMetadata entry (Box.folder self))).

End Requests.

(** * Properties *)

(** ** The monad and [make_request] *)

Section MonadFacts.
Context `{Collaborators}.

Lemma outcome_eta {A} (o : Outcome A) :
  mkOutcome (result o) (final o) (issued o) = o.
Proof. by destruct o. Qed.

Lemma bind_lift_ok {A B} (a : A) (k : A -> M B) w :
  bind (lift (Ok a)) k w = k a w.
Proof. unfold bind, lift; simpl. apply outcome_eta. Qed.

Lemma bind_lift_raise {A B} (e : Exn) (k : A -> M B) w :
  bind (lift (Raise e)) k w = mkOutcome (Raise e) w [].
Proof. reflexivity. Qed.

Lemma bind_raise_exn {A B} (e : Exn) (k : A -> M B) w :
  bind (raise e) k w = mkOutcome (Raise e) w [].
Proof. reflexivity. Qed.

Lemma bind_ret {A B} (a : A) (k : A -> M B) w : bind (ret a) k w = k a w.
Proof. apply bind_lift_ok. Qed.

Lemma bind_ok {A B} (m : M A) (k : A -> M B) w a :
  result (m w) = Ok a ->
  bind m k w =
    mkOutcome (result (k a (final (m w)))) (final (k a (final (m w))))
              (issued (m w) ++ issued (k a (final (m w)))).
Proof. intros E. unfold bind. by rewrite E. Qed.

Lemma bind_raise {A B} (m : M A) (k : A -> M B) w e :
  result (m w) = Raise e ->
  bind m k w = mkOutcome (Raise e) (final (m w)) (issued (m w)).
Proof. intros E. unfold bind. by rewrite E. Qed.

(** One call of [make_request] is one request on the wire, whatever the
    status of the answer. *)
Lemma make_request_issued dh meth u hdrs body expects throws w :
  issued (make_request dh meth u hdrs body expects throws w)
  = [mkRequest meth u (dh ++ hdrs) body].
Proof.
  unfold make_request.
  destruct (request w _) as [resp w']. by case_bool_decide.
Qed.

Lemma make_request_final dh meth u hdrs body expects throws w :
  final (make_request dh meth u hdrs body expects throws w)
  = snd (request w (mkRequest meth u (dh ++ hdrs) body)).
Proof.
  unfold make_request.
  destruct (request w _) as [resp w']. by case_bool_decide.
Qed.

Lemma make_request_expected dh meth u hdrs body expects throws w :
  let resp := fst (request w (mkRequest meth u (dh ++ hdrs) body)) in
  status resp ∈ expects ->
  result (make_request dh meth u hdrs body expects throws w) = Ok resp.
Proof.
  simpl. unfold make_request.
  destruct (request w _) as [resp w']. simpl. intros. by rewrite bool_decide_eq_true_2.
Qed.

Lemma make_request_unexpected dh meth u hdrs body expects throws w :
  let resp := fst (request w (mkRequest meth u (dh ++ hdrs) body)) in
  status resp ∉ expects ->
  result (make_request dh meth u hdrs body expects throws w)
  = Raise (mkExn throws (Some (status resp))).
Proof.
  simpl. unfold make_request.
  destruct (request w _) as [resp w']. simpl. intros. by rewrite bool_decide_eq_false_2.
Qed.

(** A request followed by the rest of the coroutine: the rest runs only on
    an expected status, and an unexpected one ends the coroutine with the
    declared error after that single request. *)
Lemma bind_request_expected {B} dh meth u hdrs body expects throws
    (k : Response -> M B) w :
  let req := mkRequest meth u (dh ++ hdrs) body in
  let o := k (fst (request w req)) (snd (request w req)) in
  status (fst (request w req)) ∈ expects ->
  bind (make_request dh meth u hdrs body expects throws) k w
  = mkOutcome (result o) (final o) (req :: issued o).
Proof.
  simpl. intros Hs. unfold bind, make_request.
  destruct (request w _) as [resp w']. simpl in *.
  by rewrite bool_decide_eq_true_2.
Qed.

Lemma bind_request_unexpected {B} dh meth u hdrs body expects throws
    (k : Response -> M B) w :
  let req := mkRequest meth u (dh ++ hdrs) body in
  status (fst (request w req)) ∉ expects ->
  bind (make_request dh meth u hdrs body expects throws) k w
  = mkOutcome (Raise (mkExn throws (Some (status (fst (request w req))))))
              (snd (request w req)) [req].
Proof.
  simpl. intros Hs. unfold bind, make_request.
  destruct (request w _) as [resp w']. simpl in *.
  by rewrite bool_decide_eq_false_2.
Qed.

(** Reading a successful run backwards. *)
Lemma bind_result_ok {A B} (m : M A) (k : A -> M B) w b :
  result (bind m k w) = Ok b ->
  exists a, result (m w) = Ok a /\ result (k a (final (m w))) = Ok b.
Proof.
  unfold bind. destruct (result (m w)) as [a|e]; simpl; [|done]. eauto.
Qed.

Lemma make_request_result_ok dh meth u hdrs body expects throws w resp :
  result (make_request dh meth u hdrs body expects throws w) = Ok resp ->
  resp = fst (request w (mkRequest meth u (dh ++ hdrs) body))
  /\ status resp ∈ expects.
Proof.
  unfold make_request. destruct (request w _) as [r w']. simpl.
  case_bool_decide; simpl; [|done]. by intros [= <-].
Qed.

Lemma resp_json_ok resp w data :
  result (resp_json resp w) = Ok data -> json_body resp = Some data.
Proof.
  unfold resp_json. destruct (json_body resp); simpl; [|done]. by intros [= <-].
Qed.

Lemma resp_json_final resp w : final (resp_json resp w) = w.
Proof. unfold resp_json. by destruct (json_body resp). Qed.

Lemma resp_json_issued resp w : issued (resp_json resp w) = [].
Proof. unfold resp_json. by destruct (json_body resp). Qed.

Lemma bind_stops {A B} (m : M A) (k : A -> M B) w e :
  m w = mkOutcome (Raise e) w [] -> bind m k w = mkOutcome (Raise e) w [].
Proof. intros E. unfold bind. by rewrite E. Qed.

Lemma result_bind_ok {A B} (m : M A) (k : A -> M B) w a :
  result (m w) = Ok a -> result (bind m k w) = result (k a (final (m w))).
Proof. intros E. by rewrite (bind_ok _ _ _ _ E). Qed.

Lemma bind_attempt {A B} (m : M A) (k : Result A -> M B) w :
  bind (attempt m) k w
  = mkOutcome (result (k (result (m w)) (final (m w))))
              (final (k (result (m w)) (final (m w))))
              (issued (m w) ++ issued (k (result (m w)) (final (m w)))).
Proof. reflexivity. Qed.

Lemma quiet_ret {A} (a : A) : quiet (ret a).
Proof. by intros w. Qed.

Lemma quiet_raise {A} (e : Exn) : quiet (raise (A := A) e).
Proof. by intros w. Qed.

Lemma quiet_lift {A} (r : Result A) : quiet (lift r).
Proof. by intros w. Qed.

Lemma quiet_resp_json resp : quiet (resp_json resp).
Proof. intros w. by rewrite resp_json_issued, resp_json_final. Qed.

Lemma quiet_bind {A B} (m : M A) (k : A -> M B) :
  quiet m -> (forall a, quiet (k a)) -> quiet (bind m k).
Proof.
  intros Hm Hk w. destruct (Hm w) as [Hi Hf]. unfold bind.
  destruct (result (m w)) as [a|e]; simpl; [|done].
  rewrite Hi, Hf. by destruct (Hk a w) as [-> ->].
Qed.

Lemma quiet_if {A} (b : bool) (m1 m2 : M A) :
  quiet m1 -> quiet m2 -> quiet (if b then m1 else m2).
Proof. by destruct b. Qed.

(** A coroutine followed by quiet steps issues what the coroutine issues. *)
Lemma bind_quiet_issued {A B} (m : M A) (k : A -> M B) w :
  (forall a, quiet (k a)) -> issued (bind m k w) = issued (m w).
Proof.
  intros Hk. unfold bind. destruct (result (m w)) as [a|e]; simpl; [|done].
  destruct (Hk a (final (m w))) as [-> _]. by rewrite app_nil_r.
Qed.

Lemma bind_quiet_final {A B} (m : M A) (k : A -> M B) w :
  (forall a, quiet (k a)) -> final (bind m k w) = final (m w).
Proof.
  intros Hk. unfold bind. destruct (result (m w)) as [a|e]; simpl; [|done].
  by destruct (Hk a (final (m w))) as [_ ->].
Qed.

Lemma bind_quiet_raise {A B} (m : M A) (k : A -> M B) w e :
  result (m w) = Raise e -> result (bind m k w) = Raise e.
Proof. intros E. unfold bind. by rewrite E. Qed.

End MonadFacts.

Create HintDb quiet.
#[export] Hint Resolve quiet_ret quiet_raise quiet_lift quiet_resp_json
  quiet_bind quiet_if : quiet.

(** ** OwnCloud: directory paths *)

Section OwnCloudDirectories.
Context `{Collaborators}.
Variable self : OwnCloud.OwnCloudProvider.

Lemma endswith_slash_nonempty path :
  endswith_slash path = true -> String.eqb path "" = false.
Proof. by destruct path. Qed.

Lemma OwnCloudPath_init_dir path :
  valid_path path = true -> endswith_slash path = true ->
  exists p, OwnCloudPath_init path = Ok p /\ is_dir p = true.
Proof.
  intros Hv Hd. exists (mkWaterButlerPath path false true).
  unfold OwnCloudPath_init, WaterButlerPath_init.
  by rewrite (endswith_slash_nonempty _ Hd), Hv.
Qed.

(** C9.  On a directory path, that is a path with a trailing separator that
    the path type accepts, OwnCloud's [metadata] returns [None]: it raises
    nothing, issues no HTTP request and leaves the backend as it was. *)
Theorem owncloud_metadata_directory path w :
  valid_path path = true ->
  endswith_slash path = true ->
  OwnCloud.metadata self path w = mkOutcome (Ok None) w [].
Proof.
  intros Hv Hd.
  destruct (OwnCloudPath_init_dir path Hv Hd) as (p & Hp & Hdir).
  unfold OwnCloud.metadata. rewrite Hp, bind_lift_ok, Hdir.
  reflexivity.
Qed.

(** C10.  On a directory path OwnCloud's [download] raises
    [DownloadError] with code 400 before any HTTP request is issued; the
    backend state is the one it started from. *)
Theorem owncloud_download_directory path w :
  valid_path path = true ->
  endswith_slash path = true ->
  OwnCloud.download self path w
  = mkOutcome (Raise (mkExn DownloadError (Some 400))) w [].
Proof.
  intros Hv Hd.
  destruct (OwnCloudPath_init_dir path Hv Hd) as (p & Hp & Hdir).
  unfold OwnCloud.download. rewrite Hp, bind_lift_ok.
  unfold is_file. rewrite Hdir. reflexivity.
Qed.

End OwnCloudDirectories.

Lemma owncloud_metadata_directory_witness :
  OwnCloud.metadata (H := Replay.session) Replay.owncloud "/photos/"
    [Replay.answer 207]
  = mkOutcome (H := Replay.session) (Ok None) [Replay.answer 207] [].
Proof.
  apply (owncloud_metadata_directory (H := Replay.session)); reflexivity.
Defined.

Lemma owncloud_download_directory_witness :
  OwnCloud.download (H := Replay.session) Replay.owncloud "/photos/"
    [Replay.answer 200]
  = mkOutcome (H := Replay.session)
      (Raise (mkExn DownloadError (Some 400))) [Replay.answer 200] [].
Proof.
  apply (owncloud_download_directory (H := Replay.session)); reflexivity.
Defined.

(** ** Box: the identity token of a path *)

Section SplitFacts.

Lemma append_cons c s t : String c s +:+ t = String c (s +:+ t).
Proof. reflexivity. Qed.

Lemma append_nil_r s : s +:+ "" = s.
Proof. induction s as [|c s IH]; [done|]. by rewrite append_cons, IH. Qed.

Lemma split_slash_head s : has_slash (fst (split_slash s)) = false.
Proof.
  induction s as [|c s IH]; simpl; [done|].
  destruct (split_slash s) as [h t]. simpl in IH.
  destruct (Ascii.eqb c slash) eqn:E; simpl; [done|]. by rewrite E.
Qed.

Lemma split_slash_nil s : snd (split_slash s) = [] -> s = fst (split_slash s).
Proof.
  induction s as [|c s IH]; simpl; [done|].
  destruct (split_slash s) as [h t]. simpl in IH.
  destruct (Ascii.eqb c slash) eqn:E; simpl; [done|].
  intros ->. by rewrite <- IH.
Qed.

Lemma split_slash_cons s x t :
  snd (split_slash s) = x :: t ->
  exists rest, s = fst (split_slash s) +:+ "/" +:+ rest
               /\ split_slash rest = (x, t).
Proof.
  induction s as [|c s IH]; simpl; [done|].
  destruct (split_slash s) as [h t'] eqn:Es. simpl in IH.
  destruct (Ascii.eqb c slash) eqn:E; simpl.
  - intros [= <- <-]. exists s. apply Ascii.eqb_eq in E. by subst c.
  - intros Ht. destruct (IH Ht) as (rest & Hs & Hr).
    exists rest. split; [|done]. rewrite Hs. reflexivity.
Qed.

(** The text after a separator starts with a segment that runs up to the
    next separator or to the end. *)
Lemma split_slash_segment rest x t :
  split_slash rest = (x, t) ->
  exists tail, rest = x +:+ tail /\ has_slash x = false
               /\ (tail = "" \/ startswith_slash tail = true).
Proof.
  intros E. pose proof (split_slash_head rest) as Hh. rewrite E in Hh.
  destruct t as [|y t].
  - exists "". pose proof (split_slash_nil rest) as Hn. rewrite E in Hn.
    simpl in *. rewrite (Hn eq_refl) at 1.
    split; [|by auto]. by rewrite append_nil_r.
  - destruct (split_slash_cons rest y t) as (r & Hr & _); [by rewrite E|].
    rewrite E in Hr. simpl in Hr. exists ("/" +:+ r). by auto.
Qed.

Lemma has_slash_prefix pre s :
  has_slash pre = false -> startswith_slash (pre +:+ "/" +:+ s) = true ->
  pre = "".
Proof.
  destruct pre as [|c pre]; [done|]. rewrite append_cons. simpl.
  intros Hs Hc. rewrite Hc in Hs. done.
Qed.

End SplitFacts.

Section BoxPaths.
Context `{Collaborators}.

Lemma WaterButlerPath_init_orig path prefix suffix base :
  WaterButlerPath_init path prefix suffix = Ok base ->
  base = mkWaterButlerPath path prefix suffix.
Proof.
  unfold WaterButlerPath_init.
  destruct (String.eqb path ""); [done|].
  destruct (valid_path path); [|done]. by intros [= <-].
Qed.

Lemma BoxPath_init_str path p :
  BoxPath_init path = Ok p -> str (box_base p) = path.
Proof.
  unfold BoxPath_init.
  destruct (WaterButlerPath_init path false false) as [base|] eqn:E; [|done].
  apply WaterButlerPath_init_orig in E. subst base. simpl.
  destruct (negb (String.eqb path "/")).
  - destruct (second (split path)); simpl; [|done]. by intros [= <-].
  - by intros [= <-].
Qed.

(** C8.  For a string the Box path type accepts, the identity token is the
    attribute [_id] computed by the constructor: ["/"] itself for the root,
    and otherwise the segment that follows the first separator of the
    string (the leading one when the string starts with a separator), up to
    the next separator or the end.  The token is a field of the constructed
    value, which nothing updates; building the path again from its string
    form gives the same value, token included. *)
Theorem boxpath_identity_token path p :
  BoxPath_init path = Ok p ->
  str (box_base p) = path
  /\ (path = "/" -> _id p = "/")
  /\ (path <> "/" ->
      exists pre seg tail,
        path = pre +:+ "/" +:+ seg +:+ tail
        /\ has_slash pre = false
        /\ has_slash seg = false
        /\ (tail = "" \/ startswith_slash tail = true)
        /\ _id p = seg
        /\ (startswith_slash path = true -> pre = ""))
  /\ BoxPath_init (str (box_base p)) = Ok p.
Proof.
  intros Hp. pose proof (BoxPath_init_str _ _ Hp) as Hstr.
  split; [done|]. split; [|split]; [| |by rewrite Hstr].
  - intros ->. revert Hp. unfold BoxPath_init.
    destruct (WaterButlerPath_init "/" false false); simpl; [|done].
    by intros [= <-].
  - intros Hne. revert Hp. unfold BoxPath_init.
    destruct (WaterButlerPath_init path false false) as [base|]; [|done].
    simpl. destruct (String.eqb path "/") eqn:E.
    { apply String.eqb_eq in E. done. }
    simpl. unfold split.
    destruct (split_slash path) as [h t] eqn:Es.
    destruct t as [|x t]; simpl; [done|]. intros [= <-]. simpl.
    destruct (split_slash_cons path x t) as (rest & Hpath & Hrest);
      [by rewrite Es|].
    rewrite Es in Hpath. simpl in Hpath.
    destruct (split_slash_segment _ _ _ Hrest) as (tail & -> & Hx & Htail).
    exists h, x, tail. repeat split; try done.
    + pose proof (split_slash_head path) as Hh. by rewrite Es in Hh.
    + intros Hs. rewrite Hpath in Hs.
      apply has_slash_prefix in Hs; [done|].
      pose proof (split_slash_head path) as Hh. by rewrite Es in Hh.
Qed.

End BoxPaths.

Lemma boxpath_identity_token_witness :
  exists p,
    BoxPath_init (H := Replay.session) "/11446498/notes.txt" = Ok p
    /\ _id p = "11446498"
    /\ BoxPath_init (H := Replay.session) (str (box_base p)) = Ok p.
Proof.
  eexists. split; [reflexivity|].
  pose proof (boxpath_identity_token (H := Replay.session)
                "/11446498/notes.txt" _ eq_refl) as (_ & _ & _ & Hre).
  split; [reflexivity | exact Hre].
Defined.

(** ** Box: download *)

Section BoxDownload.
Context `{Collaborators}.
Variable self : Box.BoxProvider.

(** What [download] does once the request is chosen. *)
Lemma download_outcome (req : Request) w :
  let resp := fst (request w req) in
  let m := resp <- make_request (Box.default_headers self) (method req)
                     (url req) [] (data req) [200] DownloadError ;;
           ret (ResponseStreamReader resp) in
  headers req = Box.default_headers self ->
  issued (m w) = [req]
  /\ final (m w) = snd (request w req)
  /\ (status resp = 200 -> result (m w) = Ok (ResponseStreamReader resp))
  /\ (status resp <> 200 ->
      result (m w) = Raise (mkExn DownloadError (Some (status resp)))).
Proof.
  intros resp m Hh. subst m resp. unfold bind, make_request, ret.
  replace (mkRequest (method req) (url req)
             (Box.default_headers self ++ []) (data req)) with req
    by (destruct req; simpl in *; by subst).
  destruct (request w req) as [resp w']. simpl.
  case_bool_decide as Hs; rewrite list_elem_of_singleton in Hs; simpl;
    repeat split; try done; intros; congruence.
Qed.

(** C6.  Box's [download] issues exactly one GET for the content of the
    file named by the path's token.  The request carries the query
    parameter [version=revision] exactly when a revision is supplied (it is
    neither [None] nor empty) and differs from the identifier the code
    compares it with, the path's token; otherwise the request has no query
    and fetches the current content.  In both cases status 200 gives the
    response wrapped in a stream reader and any other status raises
    [DownloadError] carrying that status. *)
Theorem box_download_version path revision w p :
  BoxPath_init path = Ok p ->
  exists req,
    issued (Box.download self path revision w) = [req]
    /\ (forall r, revision = Some r -> r <> "" -> r <> _id p ->
        req = content_request self (_id p) [("version", r)])
    /\ (revision = None \/ revision = Some "" \/ revision = Some (_id p) ->
        req = content_request self (_id p) [])
    /\ (status (fst (request w req)) = 200 ->
        result (Box.download self path revision w)
        = Ok (ResponseStreamReader (fst (request w req))))
    /\ (status (fst (request w req)) <> 200 ->
        result (Box.download self path revision w)
        = Raise (mkExn DownloadError (Some (status (fst (request w req)))))).
Proof.
  intros Hp. unfold Box.download. rewrite Hp, bind_lift_ok.
  assert (Hcur :
    let req := content_request self (_id p) [] in
    let m := resp <- make_request (Box.default_headers self) GET
                       (Box.build_url self ["files"; _id p; "content"] [])
                       [] None [200] DownloadError ;;
             ret (ResponseStreamReader resp) in
    issued (m w) = [req]
    /\ (status (fst (request w req)) = 200 ->
        result (m w) = Ok (ResponseStreamReader (fst (request w req))))
    /\ (status (fst (request w req)) <> 200 ->
        result (m w)
        = Raise (mkExn DownloadError (Some (status (fst (request w req))))))).
  { pose proof (download_outcome (content_request self (_id p) []) w eq_refl)
      as (? & _ & ? & ?). done. }
  simpl in Hcur. destruct Hcur as (Hi & Hok & Hbad).
  destruct revision as [r|]; simpl.
  - destruct (String.eqb r "") eqn:Ee; simpl.
    { apply String.eqb_eq in Ee. subst r.
      exists (content_request self (_id p) []).
      split; [done|]. split; [by intros ? [= <-]|]. by repeat split. }
    destruct (String.eqb r (_id p)) eqn:Ei; simpl.
    { apply String.eqb_eq in Ei. subst r.
      exists (content_request self (_id p) []).
      split; [done|]. split; [by intros ? [= <-]|]. by repeat split. }
    apply String.eqb_neq in Ee, Ei.
    exists (content_request self (_id p) [("version", r)]).
    pose proof (download_outcome
                  (content_request self (_id p) [("version", r)]) w eq_refl)
      as (? & _ & ? & ?).
    split; [done|]. split; [by intros ? [= <-]|].
    split; [|done]. intros [|[|]]; congruence.
  - exists (content_request self (_id p) []).
    split; [done|]. split; [done|]. by repeat split.
Qed.

End BoxDownload.

Lemma box_download_version_witness :
  issued (Box.download (H := Replay.session) Replay.box "/7/a.txt" (Some "3")
            [Replay.answer 200])
  = [content_request Replay.box "7" [("version", "3")]]
  /\ issued (Box.download (H := Replay.session) Replay.box "/7/a.txt"
               (Some "7") [Replay.answer 200])
     = [content_request Replay.box "7" []].
Proof.
  split.
  - destruct (box_download_version (H := Replay.session) Replay.box
                "/7/a.txt" (Some "3") [Replay.answer 200] _ eq_refl)
      as (req & -> & Hv & _).
    f_equal. by apply Hv.
  - destruct (box_download_version (H := Replay.session) Replay.box
                "/7/a.txt" (Some "7") [Replay.answer 200] _ eq_refl)
      as (req & -> & _ & Hc & _).
    f_equal. apply Hc. right; right. reflexivity.
Defined.

(** ** OwnCloud: metadata of a file *)

Section OwnCloudMetadata.
Context `{Collaborators}.
Variable self : OwnCloud.OwnCloudProvider.

Lemma find_tagged (e : Element) (t : string) :
  OwnCloud.find e t = head (tagged t (echildren e)).
Proof.
  unfold OwnCloud.find, tagged.
  induction (echildren e) as [|c l IH]; simpl; [done|].
  rewrite filter_cons.
  destruct (String.eqb (etag c) t) eqn:E.
  - apply String.eqb_eq in E. by case_decide.
  - apply String.eqb_neq in E. by case_decide.
Qed.

(** The dict built by the loop maps a tag to the text of the last element
    that carries it. *)
Lemma collect_from_lookup (l : list Element) (m : gmap string (option string)) k :
  foldl (fun file_attrs attr => <[etag attr := etext attr]> file_attrs) m l !! k
  = match last (tagged k l) with
    | Some c => Some (etext c)
    | None => m !! k
    end.
Proof.
  revert m. induction l as [|c l IH]; intros m; simpl; [done|].
  rewrite IH. unfold tagged. rewrite filter_cons.
  case_decide as Hk.
  - subst k. destruct (filter _ l) as [|d l'] eqn:El; simpl.
    + by rewrite lookup_insert_eq.
    + destruct (last (d :: l')) eqn:Ed; [done|]. by apply last_None in Ed.
  - destruct (last (filter _ l)); [done|]. by rewrite lookup_insert_ne.
Qed.

Lemma collect_lookup (l : list Element) k :
  OwnCloud.collect l !! k = etext <$> last (tagged k l).
Proof.
  unfold OwnCloud.collect. rewrite collect_from_lookup.
  by destruct (last (tagged k l)).
Qed.

(** C7.  OwnCloud's file metadata retrieval issues one PROPFIND for the
    path and expects status 207: any other status raises [MetadataError].
    On 207 the body is parsed into a tree; of the first child of the root,
    the first [{DAV:}propstat] child is taken, and of that block the first
    [{DAV:}prop] child; the children of that one property set, and nothing
    else of the tree, fill a flat mapping that sends a key to the text of
    the last child whose tag is exactly that key.  The mapping is what is
    handed to the metadata record. *)
Theorem owncloud_file_metadata_propfind (p : WaterButlerPath) w :
  let req := propfind_request self p in
  let resp := fst (request w req) in
  let out := OwnCloud._metadata_file self p w in
  issued out = [req]
  /\ (status resp <> 207 ->
      result out = Raise (mkExn MetadataError (Some (status resp))))
  /\ (status resp = 207 ->
      forall tree response propstat prop,
        fromstring (raw_body resp) = Ok tree ->
        head (echildren tree) = Some response ->
        head (tagged "{DAV:}propstat" (echildren response)) = Some propstat ->
        head (tagged "{DAV:}prop" (echildren propstat)) = Some prop ->
        exists file_attrs : gmap string (option string),
          result out = OwnCloudFileMetadata (path_attr p) file_attrs
          /\ forall k,
               file_attrs !! k = etext <$> last (tagged k (echildren prop))).
Proof.
  intros req resp out. subst out resp req.
  unfold OwnCloud._metadata_file, propfind_request.
  destruct (decide (status (fst (request w
      (mkRequest PROPFIND (UrlStr (OwnCloud.webdav_url self +:+ path_attr p))
                 (OwnCloud.default_headers self ++ [])%list None))) = 207))
    as [Hs|Hs].
  - rewrite bind_request_expected by (rewrite Hs; set_solver).
    unfold resp_read. rewrite bind_ret. cbv zeta.
    change (OwnCloud.default_headers self ++ [])%list
      with (OwnCloud.default_headers self) in *.
    split.
    { destruct (fromstring _) as [tree|];
        [rewrite bind_lift_ok | by rewrite bind_lift_raise].
      destruct (OwnCloud.file_attrs_of tree);
        [by rewrite bind_lift_ok | by rewrite bind_lift_raise]. }
    split; [done|]. intros _ tree response propstat prop Ht Hr Hps Hp.
    exists (OwnCloud.collect (echildren prop)).
    split; [|apply collect_lookup].
    rewrite Ht, bind_lift_ok.
    assert (OwnCloud.file_attrs_of tree
            = Ok (OwnCloud.collect (echildren prop))) as ->.
    { unfold OwnCloud.file_attrs_of, OwnCloud.first_child.
      destruct (echildren tree) as [|c cs]; [done|].
      simpl in Hr. injection Hr as ->. simpl.
      by rewrite find_tagged, Hps, find_tagged, Hp. }
    by rewrite bind_lift_ok.
  - rewrite bind_request_unexpected by (rewrite list_elem_of_singleton; done).
    simpl. by repeat split.
Qed.

End OwnCloudMetadata.

Lemma owncloud_file_metadata_propfind_witness :
  result (OwnCloud.metadata (H := Replay.session) Replay.owncloud "/a.txt"
            [mkResponse 207 None "<multistatus>"])
  = Ok (Some (JObj [("kind", JStr "file"); ("path", JStr "a.txt");
                    ("size", JStr "5")])).
Proof.
  pose proof (owncloud_file_metadata_propfind (H := Replay.session)
                Replay.owncloud (mkWaterButlerPath "/a.txt" false true)
                [mkResponse 207 None "<multistatus>"]) as (_ & _ & Hok).
  destruct (Hok eq_refl _ _ _ _ eq_refl eq_refl eq_refl eq_refl)
    as (attrs & Hres & Hlook).
  unfold OwnCloud.metadata.
  change (OwnCloudPath_init "/a.txt")
    with (Ok (mkWaterButlerPath "/a.txt" false true)).
  rewrite bind_lift_ok.
  change (is_dir (mkWaterButlerPath "/a.txt" false true)) with false.
  cbv iota.
  erewrite bind_ok by exact Hres.
  cbn [result ret]. rewrite Hlook. reflexivity.
Defined.

(** ** Box: revisions *)

Section BoxRevisions.
Context `{Collaborators}.
Variable self : Box.BoxProvider.

Lemma assoc_get_set {V} k (v : V) l : assoc_get k (assoc_set k v l) = Some v.
Proof.
  induction l as [|[k' v'] l IH]; simpl.
  - by rewrite String.eqb_refl.
  - destruct (String.eqb k k') eqn:E; simpl; rewrite ?String.eqb_refl, ?E; done.
Qed.

Lemma getitem_setitem v k x v' :
  setitem v k x = Ok v' -> getitem v' k = Ok x.
Proof.
  destruct v; simpl; try done. intros [= <-]. simpl. by rewrite assoc_get_set.
Qed.

(** The loop numbers the entries it is given from [idx + 1] on, in the
    order it is given them, and keeps one record per entry. *)
Lemma older_revisions_spec idx items rs :
  Box.older_revisions idx items = Ok rs ->
  length rs = length items
  /\ forall (k : nat) item,
       items !! k = Some item ->
       exists raw r,
         setitem item "revision" (JNum (idx + 1 + Z.of_nat k)) = Ok raw
         /\ BoxRevision raw = Ok r
         /\ rs !! k = Some r.
Proof.
  revert idx rs. induction items as [|item items IH]; intros idx rs; simpl.
  - intros [= <-]. split; [done|]. intros ? ? ?; done.
  - destruct (setitem item "revision" (JNum (idx + 1))) as [raw|] eqn:Es;
      simpl; [|done].
    destruct (BoxRevision raw) as [r|] eqn:Er; simpl; [|done].
    destruct (Box.older_revisions (idx + 1) items) as [rs'|] eqn:Eo;
      simpl; [|done].
    intros [= <-]. destruct (IH _ _ Eo) as [Hlen Hk].
    split; [simpl; by rewrite Hlen|].
    intros [|k] it Hit.
    + injection Hit as <-. exists raw, r. by rewrite Z.add_0_r.
    + destruct (Hk k it Hit) as (raw' & r' & Hs & Hr & Hl).
      exists raw', r'. split; [|done].
      by replace (idx + 1 + Z.of_nat (S k)) with (idx + 1 + 1 + Z.of_nat k)
        by lia.
Qed.

(** Whenever Box's [revisions] returns, the sequence is not empty.
    Its first record is made from the result of a fresh [metadata] call
    (issued after the version listing) stamped with revision index 1; the
    entries of the backend's listing follow in the backend's order, the
    [k]-th of them stamped with index [k + 2].  Hence the record at
    position [k] (from 0) is built from an item whose revision index is
    [k + 1], and it carries that index whenever the revision record keeps
    the index it is given: indices start at 1, strictly increase and are
    contiguous. *)
Theorem box_revisions_indexed path w ret :
  result (Box.revisions self path w) = Ok ret ->
  exists p data curr items,
    BoxPath_init path = Ok p
    /\ json_body (fst (request w (versions_request self (_id p)))) = Some data
    /\ rbind (getitem data "entries") py_iter = Ok items
    /\ result (Box.metadata self (str (box_base p))
                 (snd (request w (versions_request self (_id p))))) = Ok curr
    /\ ret <> []
    /\ length ret = S (length items)
    /\ (forall (k : nat) item,
          (curr :: items) !! k = Some item ->
          exists raw r,
            setitem item "revision" (JNum (Z.of_nat k + 1)) = Ok raw
            /\ revision_of raw = Ok (JNum (Z.of_nat k + 1))
            /\ BoxRevision raw = Ok r
            /\ ret !! k = Some r)
    /\ ((forall raw r, BoxRevision raw = Ok r ->
                       revision_of r = revision_of raw) ->
        forall (k : nat) r,
          ret !! k = Some r -> revision_of r = Ok (JNum (Z.of_nat k + 1))).
Proof.
  unfold Box.revisions. intros Hret.
  apply bind_result_ok in Hret as (p & Hp & Hret).
  change (result (lift (BoxPath_init path) w)) with (BoxPath_init path) in Hp.
  change (final (lift (BoxPath_init path) w)) with w in Hret.
  apply bind_result_ok in Hret as (resp & Hresp & Hret).
  rewrite make_request_final in Hret.
  apply make_request_result_ok in Hresp as [-> _].
  change (mkRequest GET (Box.build_url self ["files"; _id p; "versions"] [])
            (Box.default_headers self ++ []) None)
    with (versions_request self (_id p)) in Hret.
  set (w1 := snd (request w (versions_request self (_id p)))) in *.
  set (resp := fst (request w (versions_request self (_id p)))) in *.
  apply bind_result_ok in Hret as (data & Hdata & Hret).
  apply resp_json_ok in Hdata. rewrite resp_json_final in Hret.
  apply bind_result_ok in Hret as (curr & Hcurr & Hret).
  set (w2 := final (Box.metadata self (str (box_base p)) w1)) in *.
  apply bind_result_ok in Hret as (curr' & Hcurr' & Hret).
  apply bind_result_ok in Hret as (r & Hr & Hret).
  apply bind_result_ok in Hret as (entries & Hentries & Hret).
  apply bind_result_ok in Hret as (items & Hitems & Hret).
  apply bind_result_ok in Hret as (rs & Hrs & Hret).
  simpl in Hcurr', Hr, Hentries, Hitems, Hrs, Hret.
  injection Hret as <-.
  destruct (older_revisions_spec _ _ _ Hrs) as [Hlen Hk].
  assert (Hall : forall (k : nat) item,
            (curr :: items) !! k = Some item ->
            exists raw r0,
              setitem item "revision" (JNum (Z.of_nat k + 1)) = Ok raw
              /\ revision_of raw = Ok (JNum (Z.of_nat k + 1))
              /\ BoxRevision raw = Ok r0
              /\ (r :: rs) !! k = Some r0).
  { intros [|k] item Hit; simpl in Hit.
    - injection Hit as <-. exists curr', r.
      split; [done|]. split; [|done]. by eapply getitem_setitem.
    - destruct (Hk k item Hit) as (raw & r0 & Hs & Hb & Hl).
      replace (1 + 1 + Z.of_nat k) with (Z.of_nat (S k) + 1) in Hs by lia.
      exists raw, r0. split; [done|]. split; [|done].
      by eapply getitem_setitem. }
  exists p, data, curr, items.
  split; [done|]. split; [done|].
  split; [by rewrite Hentries|]. split; [done|]. split; [done|].
  split; [simpl; by rewrite Hlen|]. split; [done|].
  intros Hkeep k r0 Hr0.
  assert (is_Some ((curr :: items) !! k)) as [item Hit].
  { apply lookup_lt_is_Some. apply lookup_lt_Some in Hr0.
    simpl in *. lia. }
  destruct (Hall k item Hit) as (raw & r1 & _ & Hrev & Hb & Hl).
  rewrite Hr0 in Hl. injection Hl as <-.
  by rewrite (Hkeep _ _ Hb).
Qed.

End BoxRevisions.

Lemma box_revisions_indexed_witness :
  exists ret,
    result (Box.revisions (H := Replay.session) Replay.box "/7/a.txt"
              Replay.versions_script) = Ok ret
    /\ length ret = 3%nat
    /\ forall (k : nat) r,
         ret !! k = Some r -> revision_of r = Ok (JNum (Z.of_nat k + 1)).
Proof.
  eexists. split; [reflexivity|].
  destruct (box_revisions_indexed (H := Replay.session) Replay.box "/7/a.txt"
              Replay.versions_script _ eq_refl)
    as (p & data & curr & items & _ & _ & _ & _ & _ & _ & _ & Hidx).
  split; [reflexivity|]. apply Hidx.
  intros raw r. simpl. unfold Replay.revision_record, revision_of.
  destruct (getitem raw "revision") as [x|e]; simpl; [|done].
  by intros [= <-].
Defined.

(** ** Box: what [metadata] puts on the wire *)

Ltac quiet_steps :=
  repeat first
    [ progress intros
    | apply quiet_ret | apply quiet_raise | apply quiet_lift
    | apply quiet_resp_json | apply quiet_bind | apply quiet_if
    | match goal with
      | |- quiet (match ?x with _ => _ end) => destruct x
      end ].

Section BoxMetadata.
Context `{Collaborators}.
Variable self : Box.BoxProvider.

Lemma metadata_wire path w p :
  BoxPath_init path = Ok p ->
  issued (Box.metadata self path w) = [metadata_request self p]
  /\ final (Box.metadata self path w) = snd (request w (metadata_request self p)).
Proof.
  intros Hp. unfold Box.metadata, metadata_request.
  rewrite Hp, bind_lift_ok.
  destruct (is_file (box_base p)).
  - unfold Box._get_file_meta.
    rewrite bind_quiet_issued, bind_quiet_final by quiet_steps.
    by rewrite make_request_issued, make_request_final.
  - unfold Box._get_folder_meta.
    rewrite bind_quiet_issued, bind_quiet_final by quiet_steps.
    by rewrite make_request_issued, make_request_final.
Qed.

(** A status other than 200 makes [metadata] raise [MetadataError]. *)
Lemma metadata_unexpected path w p :
  BoxPath_init path = Ok p ->
  status (fst (request w (metadata_request self p))) <> 200 ->
  result (Box.metadata self path w)
  = Raise (mkExn MetadataError
                 (Some (status (fst (request w (metadata_request self p)))))).
Proof.
  intros Hp Hs. unfold Box.metadata, metadata_request in *.
  rewrite Hp, bind_lift_ok.
  destruct (is_file (box_base p)).
  - unfold Box._get_file_meta.
    rewrite bind_request_unexpected; [done|].
    by rewrite list_elem_of_singleton.
  - unfold Box._get_folder_meta.
    rewrite bind_request_unexpected; [done|].
    by rewrite list_elem_of_singleton.
Qed.

Lemma BoxPath_init_again p path :
  BoxPath_init path = Ok p -> BoxPath_init (str (box_base p)) = Ok p.
Proof. intros Hp. by rewrite (BoxPath_init_str _ _ Hp). Qed.

End BoxMetadata.

(** ** Box: upload *)

Section BoxUpload.
Context `{Collaborators}.
Variable self : Box.BoxProvider.

Lemma upload_tail_quiet dc : quiet (upload_tail self dc).
Proof. unfold upload_tail. quiet_steps. Qed.

Lemma upload_tail_flag dc w m c :
  result (upload_tail self dc w) = Ok (m, c) -> c = snd dc.
Proof.
  unfold upload_tail. intros Hr.
  apply bind_result_ok in Hr as (entries & _ & Hr).
  apply bind_result_ok in Hr as (entry & _ & Hr).
  apply bind_result_ok in Hr as (m' & _ & Hr).
  simpl in Hr. by injection Hr as _ <-.
Qed.

Lemma upload_create_wire stream p ud w :
  make_upload_data stream (_id p) (name (box_base p)) = Ok ud ->
  issued (Box._upload_create self stream p w) = [create_request self ud]
  /\ final (Box._upload_create self stream p w)
     = snd (request w (create_request self ud)).
Proof.
  intros Hud. unfold Box._upload_create. rewrite Hud, bind_lift_ok.
  rewrite bind_quiet_issued, bind_quiet_final by quiet_steps.
  by rewrite make_request_issued, make_request_final.
Qed.

Lemma upload_update_wire stream p ud meta mp q w :
  make_upload_data stream (_id p) (name (box_base p)) = Ok ud ->
  getitem meta "path" = Ok (JStr mp) ->
  BoxPath_init mp = Ok q ->
  issued (Box._upload_update self stream p meta w)
  = [update_request self (_id q) ud]
  /\ final (Box._upload_update self stream p meta w)
     = snd (request w (update_request self (_id q) ud)).
Proof.
  intros Hud Hmp Hq. unfold Box._upload_update.
  rewrite Hmp, bind_lift_ok. simpl. rewrite Hq, bind_lift_ok.
  rewrite Hud, bind_lift_ok.
  rewrite bind_quiet_issued, bind_quiet_final by quiet_steps.
  by rewrite make_request_issued, make_request_final.
Qed.

(** [upload] once its path is built: the probe, then the branch. *)
Lemma upload_unfold stream path w p :
  BoxPath_init (os_path_join (Box.folder self) path) = Ok p ->
  Box.upload self stream path w
  = bind (attempt (Box.metadata self (str (box_base p))))
      (fun probe =>
         bind match probe with
              | Raise e =>
                  if decide (ekind e = MetadataError)
                  then data <- Box._upload_create self stream p ;;
                       ret (data, true)
                  else raise e
              | Ok meta =>
                  data <- Box._upload_update self stream p meta ;;
                  ret (data, false)
              end
              (upload_tail self)) w.
Proof. intros Hp. unfold Box.upload. by rewrite Hp, bind_lift_ok. Qed.

Lemma upload_tail_result dc w :
  result (upload_tail self dc w)
  = rbind (first_entry_record self (fst dc)) (fun m => Ok (m, snd dc)).
Proof.
  unfold upload_tail, first_entry_record.
  destruct (getitem (fst dc) "entries") as [entries|]; cbn [rbind];
    [rewrite bind_lift_ok | rewrite bind_lift_raise; reflexivity].
  destruct (getfirst entries) as [entry|]; cbn [rbind];
    [rewrite bind_lift_ok | rewrite bind_lift_raise; reflexivity].
  destruct (BoxFileMetadata entry (Box.folder self)); cbn [rbind];
    [rewrite bind_lift_ok | rewrite bind_lift_raise]; reflexivity.
Qed.

Lemma upload_create_result stream p ud w data :
  make_upload_data stream (_id p) (name (box_base p)) = Ok ud ->
  status (fst (request w (create_request self ud))) ∈ [200; 201] ->
  json_body (fst (request w (create_request self ud))) = Some data ->
  result (Box._upload_create self stream p w) = Ok data.
Proof.
  intros Hud Hs Hj. unfold Box._upload_create. rewrite Hud, bind_lift_ok.
  rewrite bind_request_expected by exact Hs. cbn [result]. unfold resp_json.
  change (mkRequest POST (Box._build_upload_url self ["files"; "content"] [])
            (Box.default_headers self ++ Box.upload_headers ud)%list
            (Some (ud_stream ud))) with (create_request self ud).
  by rewrite Hj.
Qed.

Lemma upload_update_result stream p ud meta mp q w data :
  make_upload_data stream (_id p) (name (box_base p)) = Ok ud ->
  getitem meta "path" = Ok (JStr mp) ->
  BoxPath_init mp = Ok q ->
  status (fst (request w (update_request self (_id q) ud))) ∈ [200; 201] ->
  json_body (fst (request w (update_request self (_id q) ud))) = Some data ->
  result (Box._upload_update self stream p meta w) = Ok data.
Proof.
  intros Hud Hmp Hq Hs Hj. unfold Box._upload_update.
  rewrite Hmp, bind_lift_ok. unfold Box.BoxPath_of.
  rewrite Hq, bind_lift_ok, Hud, bind_lift_ok.
  rewrite bind_request_expected by exact Hs. cbn [result]. unfold resp_json.
  change (mkRequest POST
            (Box._build_upload_url self ["files"; _id q; "content"] [])
            (Box.default_headers self ++ Box.upload_headers ud)%list
            (Some (ud_stream ud))) with (update_request self (_id q) ud).
  by rewrite Hj.
Qed.

(** A probe result that holds no usable path stops the update before
    anything is sent. *)
Lemma upload_update_rejects stream p meta e w :
  rbind (getitem meta "path") Box.BoxPath_of = Raise e ->
  Box._upload_update self stream p meta w = mkOutcome (Raise e) w [].
Proof.
  intros Hr. unfold Box._upload_update.
  destruct (getitem meta "path") as [v|e0]; cbn [rbind] in Hr.
  - by rewrite bind_lift_ok, Hr, bind_lift_raise.
  - injection Hr as ->. by rewrite bind_lift_raise.
Qed.

Lemma meta_path_usable meta q :
  rbind (getitem meta "path") Box.BoxPath_of = Ok q ->
  exists mp, getitem meta "path" = Ok (JStr mp) /\ BoxPath_init mp = Ok q.
Proof.
  destruct (getitem meta "path") as [v|]; cbn [rbind]; [|done].
  destruct v; try done. simpl. by eauto.
Qed.

Lemma create_is_no_probe p ud : create_request self ud <> metadata_request self p.
Proof.
  unfold metadata_request. destruct (is_file (box_base p)); discriminate.
Qed.

Lemma create_is_no_update i ud : create_request self ud <> update_request self i ud.
Proof. discriminate. Qed.

(** C1.  Box's [upload] first runs [metadata] on the path it built.  When
    that probe raises [MetadataError], and only then, the upload is a
    create: one POST to [files/content] whose multipart body names the
    path's token as parent identifier; when that request is accepted and
    the first entry of the answer serializes, [upload] returns that record
    with [created = true], and no result reports anything else.  When the
    probe returns a record, no create-upload is sent: the upload is an
    update, one POST to [files/<id>/content] where [<id>] is the token of
    the path stored in the probe's result, not that of the request path,
    and an accepted request returns the record with [created = false]; a
    probe result without a usable path ends [upload] before anything is
    uploaded.  Any other exception of the probe is passed on and nothing
    is uploaded. *)
Theorem box_upload_disambiguation stream path w p ud :
  BoxPath_init (os_path_join (Box.folder self) path) = Ok p ->
  make_upload_data stream (_id p) (name (box_base p)) = Ok ud ->
  let probe := Box.metadata self (str (box_base p)) w in
  let out := Box.upload self stream path w in
  (exists rest, issued out = (issued probe ++ rest)%list)
  /\ (forall e, result probe = Raise e -> ekind e = MetadataError ->
        issued out = (issued probe ++ [create_request self ud])%list
        /\ (forall m c, result out = Ok (m, c) -> c = true)
        /\ (forall data m,
              status (fst (request (final probe) (create_request self ud)))
                ∈ [200; 201] ->
              json_body (fst (request (final probe)
                                      (create_request self ud))) = Some data ->
              first_entry_record self data = Ok m ->
              result out = Ok (m, true)))
  /\ (forall meta mp q,
        result probe = Ok meta ->
        getitem meta "path" = Ok (JStr mp) ->
        BoxPath_init mp = Ok q ->
        issued out = (issued probe ++ [update_request self (_id q) ud])%list
        /\ (forall m c, result out = Ok (m, c) -> c = false)
        /\ (forall data m,
              status (fst (request (final probe)
                                   (update_request self (_id q) ud)))
                ∈ [200; 201] ->
              json_body (fst (request (final probe)
                                      (update_request self (_id q) ud)))
                = Some data ->
              first_entry_record self data = Ok m ->
              result out = Ok (m, false)))
  /\ (forall meta e,
        result probe = Ok meta ->
        rbind (getitem meta "path") Box.BoxPath_of = Raise e ->
        out = mkOutcome (Raise e) (final probe) (issued probe))
  /\ (forall e, result probe = Raise e -> ekind e <> MetadataError ->
        out = mkOutcome (Raise e) (final probe) (issued probe))
  /\ (create_request self ud ∈ issued out
      <-> exists e, result probe = Raise e /\ ekind e = MetadataError)
  /\ (forall m, result out = Ok (m, true) ->
        exists e, result probe = Raise e /\ ekind e = MetadataError)
  /\ (forall m, result out = Ok (m, false) ->
        exists meta, result probe = Ok meta).
Proof.
  intros Hp Hud probe out. subst out.
  pose proof (BoxPath_init_again _ _ Hp) as Hp'.
  destruct (metadata_wire self _ w _ Hp') as [Hwire _]. fold probe in Hwire.
  rewrite (upload_unfold _ _ _ _ Hp), bind_attempt. fold probe.
  cbn [result final issued].
  assert (Hcreate : forall m c,
              result (bind (data <- Box._upload_create self stream p ;;
                            ret (data, true)) (upload_tail self) (final probe))
              = Ok (m, c) -> c = true).
  { intros m c Hr.
    apply bind_result_ok in Hr as (dc & Hdc & Hr).
    apply upload_tail_flag in Hr as ->.
    apply bind_result_ok in Hdc as (d & _ & Hdc).
    simpl in Hdc. by injection Hdc as <-. }
  assert (Hupdate : forall meta m c,
              result (bind (data <- Box._upload_update self stream p meta ;;
                            ret (data, false)) (upload_tail self) (final probe))
              = Ok (m, c) -> c = false).
  { intros meta m c Hr.
    apply bind_result_ok in Hr as (dc & Hdc & Hr).
    apply upload_tail_flag in Hr as ->.
    apply bind_result_ok in Hdc as (d & _ & Hdc).
    simpl in Hdc. by injection Hdc as <-. }
  assert (Hcreate_wire :
            issued (bind (data <- Box._upload_create self stream p ;;
                          ret (data, true)) (upload_tail self) (final probe))
            = [create_request self ud]).
  { rewrite bind_quiet_issued by apply upload_tail_quiet.
    rewrite bind_quiet_issued by quiet_steps.
    by apply upload_create_wire. }
  assert (Hupdate_wire : forall meta mp q,
            getitem meta "path" = Ok (JStr mp) -> BoxPath_init mp = Ok q ->
            issued (bind (data <- Box._upload_update self stream p meta ;;
                          ret (data, false)) (upload_tail self) (final probe))
            = [update_request self (_id q) ud]).
  { intros meta mp q Hmp Hq.
    rewrite bind_quiet_issued by apply upload_tail_quiet.
    rewrite bind_quiet_issued by quiet_steps.
    by eapply upload_update_wire. }
  assert (Hreject : forall meta e,
            rbind (getitem meta "path") Box.BoxPath_of = Raise e ->
            bind (data <- Box._upload_update self stream p meta ;;
                  ret (data, false)) (upload_tail self) (final probe)
            = mkOutcome (Raise e) (final probe) []).
  { intros meta e Hr. do 2 apply bind_stops.
    by apply upload_update_rejects. }
  split; [by eexists|].
  split.
  { intros e He Hk. rewrite He. rewrite decide_True by done.
    split; [by rewrite Hcreate_wire|]. split; [exact Hcreate|].
    intros data m Hs Hj Hm.
    erewrite result_bind_ok
      by (erewrite result_bind_ok
            by (by eapply upload_create_result); reflexivity).
    rewrite upload_tail_result. cbn [fst snd]. by rewrite Hm. }
  split.
  { intros meta mp q Hm Hmp Hq. rewrite Hm.
    split; [by erewrite Hupdate_wire|]. split; [by apply Hupdate|].
    intros data m Hs Hj Hrec.
    erewrite result_bind_ok
      by (erewrite result_bind_ok
            by (by eapply upload_update_result); reflexivity).
    rewrite upload_tail_result. cbn [fst snd]. by rewrite Hrec. }
  split.
  { intros meta e Hm Hr. rewrite Hm, (Hreject _ _ Hr).
    cbn [result final issued]. by rewrite app_nil_r. }
  split.
  { intros e He Hk. rewrite He. rewrite decide_False by done.
    rewrite bind_raise_exn. cbn [result final issued].
    by rewrite app_nil_r. }
  split.
  { rewrite Hwire. split.
    - intros Hin. destruct (result probe) as [meta|e] eqn:Ep.
      + exfalso.
        destruct (rbind (getitem meta "path") Box.BoxPath_of) as [q|e] eqn:Er.
        * destruct (meta_path_usable _ _ Er) as (mp & Hmp & Hq).
          rewrite (Hupdate_wire _ _ _ Hmp Hq) in Hin.
          apply elem_of_cons in Hin as [Hin|Hin];
            [by apply create_is_no_probe in Hin|].
          apply list_elem_of_singleton in Hin.
          by apply create_is_no_update in Hin.
        * rewrite (Hreject _ _ Er) in Hin. cbn [issued] in Hin.
          apply list_elem_of_singleton in Hin.
          by apply create_is_no_probe in Hin.
      + destruct (decide (ekind e = MetadataError)); [by eauto|].
        exfalso. rewrite bind_raise_exn in Hin. cbn [issued] in Hin.
        apply list_elem_of_singleton in Hin.
        by apply create_is_no_probe in Hin.
    - intros (e & -> & Hk). rewrite decide_True by done.
      rewrite Hcreate_wire. apply list_elem_of_further, list_elem_of_here. }
  split.
  - intros m Hr. destruct (result probe) as [meta|e] eqn:Ep.
    + by apply Hupdate in Hr.
    + destruct (decide (ekind e = MetadataError)); [by eauto|].
      by rewrite bind_raise_exn in Hr.
  - intros m Hr. destruct (result probe) as [meta|e] eqn:Ep; [by eauto|].
    destruct (decide (ekind e = MetadataError)) as [Hk|Hk].
    + by eapply Hcreate in Hr.
    + by rewrite bind_raise_exn in Hr.
Qed.

End BoxUpload.

Lemma box_upload_disambiguation_witness :
  Box.upload (H := Replay.session) Replay.box Replay.five_bytes "notes.txt"
    Replay.create_script
  = mkOutcome (H := Replay.session)
      (Ok (JObj [("kind", JStr "file"); ("name", JStr "notes.txt");
                 ("path", JStr "/77/notes.txt")], true))
      []
      [file_request Replay.box "11446498";
       create_request Replay.box Replay.five_bytes_encoded]
  /\ Box.upload (H := Replay.session) Replay.box Replay.five_bytes "notes.txt"
       Replay.update_script
     = mkOutcome (H := Replay.session)
         (Ok (JObj [("kind", JStr "file"); ("name", JStr "notes.txt");
                    ("path", JStr "/77/notes.txt")], false))
         []
         [file_request Replay.box "11446498";
          update_request Replay.box "77" Replay.five_bytes_encoded].
Proof.
  assert (Hsplit : forall (o o' : Outcome (H := Replay.session) (Json * bool)),
            result o = result o' -> final o = final o' ->
            issued o = issued o' -> o = o').
  { intros [] []; simpl; by intros -> -> ->. }
  split.
  - pose proof (box_upload_disambiguation (H := Replay.session) Replay.box
                  Replay.five_bytes "notes.txt" Replay.create_script
                  _ _ eq_refl eq_refl) as Hw.
    cbv zeta in Hw. destruct Hw as (_ & Hcreate & _).
    destruct (Hcreate (mkExn MetadataError (Some 404)) eq_refl eq_refl)
      as (Hi & _ & Hres).
    apply Hsplit; [|reflexivity|by rewrite Hi].
    apply (Hres (JObj [("entries",
                        JArr [Replay.box_file "77" "notes.txt"])]));
      [|reflexivity|reflexivity].
    apply list_elem_of_further, list_elem_of_here.
  - pose proof (box_upload_disambiguation (H := Replay.session) Replay.box
                  Replay.five_bytes "notes.txt" Replay.update_script
                  _ _ eq_refl eq_refl) as Hw.
    cbv zeta in Hw. destruct Hw as (_ & _ & Hupdate & _).
    destruct (Hupdate _ "/77/notes.txt" _ eq_refl eq_refl eq_refl)
      as (Hi & _ & Hres).
    apply Hsplit; [|reflexivity|by rewrite Hi].
    apply (Hres (JObj [("entries",
                        JArr [Replay.box_file "77" "notes.txt"])]));
      [|reflexivity|reflexivity].
    apply list_elem_of_further, list_elem_of_here.
Defined.

(** ** Deletion *)

Section Deletion.
Context `{Collaborators}.

Lemma returning_result {A} (f : A -> PyVal) (m : M A) w :
  result (returning f m w)
  = match result (m w) with Ok a => Ok (f a) | Raise e => Raise e end.
Proof. unfold returning, bind. by destruct (result (m w)). Qed.

Lemma returning_issued {A} (f : A -> PyVal) (m : M A) w :
  issued (returning f m w) = issued (m w).
Proof. unfold returning. apply bind_quiet_issued. quiet_steps. Qed.

Lemma returning_final {A} (f : A -> PyVal) (m : M A) w :
  final (returning f m w) = final (m w).
Proof. unfold returning. apply bind_quiet_final. quiet_steps. Qed.

Lemma box_delete_unfold self path w p :
  BoxPath_init path = Ok p ->
  Box.delete self path w
  = bind (Box.metadata self (str (box_base p)))
      (fun _ =>
         make_request (Box.default_headers self) DELETE
           (Box.build_url self ["files"; _id p] []) [] None [204] DeleteError
         ;;; ret tt) w.
Proof. intros Hp. unfold Box.delete. by rewrite Hp, bind_lift_ok. Qed.

(** C5, as the code has it.  Box's [delete] runs [metadata] on the path
    first, which is one GET; if that probe raises, [delete] ends with the
    probe's exception ([MetadataError] when the probe's status is not 200)
    and no DELETE is issued; if the probe returns, exactly one DELETE for
    the path's token follows, and a status other than 204 raises
    [DeleteError].  OwnCloud's [delete] issues its DELETE at once, without
    a probe, and the status of that answer decides: 204 returns [True], any
    other status raises [DeleteError] carrying it. *)
Theorem delete_probe_then_destroy path w :
  (forall self p,
     BoxPath_init path = Ok p ->
     let probe := Box.metadata self (str (box_base p)) w in
     let out := Box.delete self path w in
     let req := delete_request self (_id p) in
     let resp := fst (request (final probe) req) in
     issued probe = [metadata_request self p]
     /\ (status (fst (request w (metadata_request self p))) <> 200 ->
         exists e, result probe = Raise e /\ ekind e = MetadataError)
     /\ (forall e, result probe = Raise e ->
           out = mkOutcome (Raise e) (final probe) (issued probe))
     /\ (forall meta, result probe = Ok meta ->
           issued out = [metadata_request self p; req]
           /\ (status resp = 204 -> result out = Ok tt)
           /\ (status resp <> 204 ->
               result out = Raise (mkExn DeleteError (Some (status resp))))))
  /\ (forall self,
        let out := OwnCloud.delete self path w in
        let req := owncloud_delete_request self path in
        let resp := fst (request w req) in
        issued out = [req]
        /\ (status resp = 204 -> result out = Ok true)
        /\ (status resp <> 204 ->
            result out = Raise (mkExn DeleteError (Some (status resp))))).
Proof.
  split.
  - intros self p Hp probe out req resp.
    pose proof (BoxPath_init_again _ _ Hp) as Hp'.
    destruct (metadata_wire self _ w _ Hp') as [Hwire Hfin]. fold probe in Hwire.
    split; [done|]. split.
    { intros Hs. eexists. split; [by apply metadata_unexpected|done]. }
    subst out. rewrite (box_delete_unfold _ _ _ _ Hp). fold probe.
    split.
    { intros e He. by apply bind_raise. }
    intros meta Hm. rewrite (bind_ok _ _ _ _ Hm). fold probe.
    cbn [result final issued]. rewrite Hwire.
    destruct (decide (status resp = 204)) as [Hs|Hs].
    + rewrite bind_request_expected by (rewrite list_elem_of_singleton; done).
      cbn [result final issued]. by repeat split.
    + rewrite bind_request_unexpected
        by (rewrite list_elem_of_singleton; done).
      cbn [result final issued]. by repeat split.
  - intros self out req resp. subst out. unfold OwnCloud.delete.
    destruct (decide (status resp = 204)) as [Hs|Hs].
    + rewrite bind_request_expected by (rewrite list_elem_of_singleton; done).
      cbn [result final issued]. by repeat split.
    + rewrite bind_request_unexpected
        by (rewrite list_elem_of_singleton; done).
      cbn [result final issued]. by repeat split.
Qed.

End Deletion.

(** C5, as stated, fails on the Box adapter: deleting a file that the
    backend does not know (it answers 404 to the probe) ends with
    [MetadataError], not [DeleteError], after the probe alone. *)
Lemma box_delete_absent_raises_MetadataError :
  Box.delete (H := Replay.session) Replay.box "/7/a.txt" [Replay.answer 404]
  = mkOutcome (H := Replay.session)
      (Raise (mkExn MetadataError (Some 404))) []
      [file_request Replay.box "7"]
  /\ ~ delete_fails_with_DeleteError.
Proof.
  split; [reflexivity|]. intros Hc.
  specialize (Hc Replay.session (BoxAdapter Replay.box) "/7/a.txt"
                 [Replay.answer 404] (mkExn MetadataError (Some 404))
                 eq_refl).
  assert (MetadataError = DeleteError) as Hk by (apply Hc; discriminate).
  discriminate Hk.
Qed.

Lemma delete_probe_then_destroy_witness :
  result (Box.delete (H := Replay.session) Replay.box "/7/a.txt"
            [Replay.answer_json 200 (Replay.box_file "7" "a.txt");
             Replay.answer 500])
  = Raise (mkExn DeleteError (Some 500))
  /\ result (OwnCloud.delete (H := Replay.session) Replay.owncloud "a.txt"
               [Replay.answer 404])
     = Raise (mkExn DeleteError (Some 404)).
Proof.
  pose proof (delete_probe_then_destroy (H := Replay.session) "/7/a.txt"
                [Replay.answer_json 200 (Replay.box_file "7" "a.txt");
                 Replay.answer 500]) as [Hbox _].
  pose proof (delete_probe_then_destroy (H := Replay.session) "a.txt"
                [Replay.answer 404]) as [_ Hown].
  split.
  - specialize (Hbox Replay.box _ eq_refl). cbv zeta in Hbox.
    destruct Hbox as (_ & _ & _ & Hok).
    destruct (Hok _ eq_refl) as (_ & _ & Hbad). by apply Hbad.
  - specialize (Hown Replay.owncloud). cbv zeta in Hown.
    destruct Hown as (_ & _ & Hbad). by apply Hbad.
Defined.

(** ** The result of an upload *)

Section UploadResult.
Context `{Collaborators}.

Lemma upload_tail_record self dc w m c :
  result (upload_tail self dc w) = Ok (m, c) ->
  record_of_answer self (fst dc) m /\ c = snd dc.
Proof.
  unfold upload_tail. intros Hr.
  apply bind_result_ok in Hr as (entries & He & Hr).
  apply bind_result_ok in Hr as (entry & Hf & Hr).
  apply bind_result_ok in Hr as (m' & Hm & Hr).
  simpl in *. injection Hr as <- <-. split; [|done].
  by exists entries, entry.
Qed.

(** C2, as the code has it.  Box's [upload] returns a pair of a record and
    a flag.  The flag is [true] when the metadata probe raised
    [MetadataError] and the create-upload went through, and [false] when
    the probe returned a record and the update-upload went through; the
    record is the serialization of the first entry of the backend's answer
    to that upload.  OwnCloud's [upload] issues one PUT and returns the
    bare value [True] when it is answered 201; any other status raises
    [UploadError]; it returns neither a record nor a flag. *)
Theorem upload_result_shape stream path w :
  (forall self v,
     result (adapter_upload (BoxAdapter self) stream path w) = Ok v ->
     exists m created p data,
       v = PyTuple (PyJson m) (PyBool created)
       /\ result (Box.upload self stream path w) = Ok (m, created)
       /\ BoxPath_init (os_path_join (Box.folder self) path) = Ok p
       /\ record_of_answer self data m
       /\ let probe := Box.metadata self (str (box_base p)) w in
          if created
          then (exists e, result probe = Raise e /\ ekind e = MetadataError)
               /\ result (Box._upload_create self stream p (final probe))
                  = Ok data
          else exists meta,
                 result probe = Ok meta
                 /\ result (Box._upload_update self stream p meta
                              (final probe)) = Ok data)
  /\ (forall self,
        let out := adapter_upload (OwnCloudAdapter self) stream path w in
        let req := owncloud_put_request self stream path in
        let resp := fst (request w req) in
        issued out = [req]
        /\ (status resp = 201 -> result out = Ok (PyBool true))
        /\ (status resp <> 201 ->
            result out = Raise (mkExn UploadError (Some (status resp))))).
Proof.
  split.
  - intros self v Hv. unfold adapter_upload in Hv.
    rewrite returning_result in Hv.
    destruct (result (Box.upload self stream path w)) as [[m c]|] eqn:Hr;
      [|done].
    injection Hv as <-. simpl.
    unfold Box.upload in Hr.
    apply bind_result_ok in Hr as (p & Hp & Hr).
    change (result (lift (BoxPath_init (os_path_join (Box.folder self) path)) w))
      with (BoxPath_init (os_path_join (Box.folder self) path)) in Hp.
    change (final (lift (BoxPath_init (os_path_join (Box.folder self) path)) w))
      with w in Hr.
    rewrite bind_attempt in Hr. cbn [result] in Hr.
    apply bind_result_ok in Hr as (dc & Hdc & Hr).
    apply (upload_tail_record self) in Hr as [Hrec ->].
    destruct (result (Box.metadata self (str (box_base p)) w))
      as [meta|e] eqn:Hprobe.
    + apply bind_result_ok in Hdc as (data & Hdata & Hdc).
      simpl in Hdc. injection Hdc as <-.
      exists m, false, p, data. simpl. repeat split; try done.
      by exists meta.
    + destruct (decide (ekind e = MetadataError)) as [Hk|Hk]; [|done].
      apply bind_result_ok in Hdc as (data & Hdata & Hdc).
      simpl in Hdc. injection Hdc as <-.
      exists m, true, p, data. simpl. repeat split; try done.
      by exists e.
  - intros self out req resp. subst out. unfold adapter_upload.
    rewrite returning_issued, returning_result. unfold OwnCloud.upload.
    destruct (decide (status resp = 201)) as [Hs|Hs].
    + rewrite bind_request_expected by (rewrite list_elem_of_singleton; done).
      cbn [result final issued]. by repeat split.
    + rewrite bind_request_unexpected
        by (rewrite list_elem_of_singleton; done).
      cbn [result final issued]. by repeat split.
Qed.

End UploadResult.

(** C2, as stated, fails.  OwnCloud's [upload] returns [True], which is no
    pair of a record and a flag, so there is no record whose path could be
    compared; and on the Box adapter the record comes from the backend's
    answer: an upload to [notes.txt] comes back as [/77/notes.txt]. *)
Lemma owncloud_upload_returns_True :
  result (adapter_upload (H := Replay.session)
            (OwnCloudAdapter Replay.owncloud) Replay.five_bytes "a.txt"
            [Replay.answer 201]) = Ok (PyBool true)
  /\ ~ upload_returns_pair
  /\ result (Box.upload (H := Replay.session) Replay.box Replay.five_bytes
               "notes.txt" Replay.create_script)
     = Ok (JObj [("kind", JStr "file"); ("name", JStr "notes.txt");
                 ("path", JStr "/77/notes.txt")], true).
Proof.
  split; [reflexivity|]. split; [|reflexivity]. intros Hc.
  destruct (Hc Replay.session (OwnCloudAdapter Replay.owncloud)
               Replay.five_bytes "a.txt" [Replay.answer 201] _ eq_refl)
    as (m & created & Hv).
  discriminate Hv.
Qed.

Lemma upload_result_shape_witness :
  result (adapter_upload (H := Replay.session) (BoxAdapter Replay.box)
            Replay.five_bytes "notes.txt" Replay.update_script)
  = Ok (PyTuple
          (PyJson (JObj [("kind", JStr "file"); ("name", JStr "notes.txt");
                         ("path", JStr "/77/notes.txt")]))
          (PyBool false))
  /\ result (adapter_upload (H := Replay.session)
               (OwnCloudAdapter Replay.owncloud) Replay.five_bytes "a.txt"
               [Replay.answer 204])
     = Raise (mkExn UploadError (Some 204)).
Proof.
  pose proof (upload_result_shape (H := Replay.session) Replay.five_bytes
                "notes.txt" Replay.update_script) as [Hbox _].
  pose proof (upload_result_shape (H := Replay.session) Replay.five_bytes
                "a.txt" [Replay.answer 204]) as [_ Hown].
  split.
  - destruct (Hbox Replay.box _ eq_refl)
      as (m & created & p & data & Hv & _).
    reflexivity.
  - specialize (Hown Replay.owncloud). cbv zeta in Hown.
    destruct Hown as (_ & _ & Hbad). by apply Hbad.
Defined.

(** ** Unexpected statuses *)

Section UnexpectedStatus.
Context `{Collaborators}.

Lemma stops_at_request {B} dh meth u hdrs body expects throws
    (k : Response -> M B) w :
  status (fst (request w (mkRequest meth u (dh ++ hdrs) body))) ∉ expects ->
  stops_at (bind (make_request dh meth u hdrs body expects throws) k w)
           [] w (mkRequest meth u (dh ++ hdrs) body) throws.
Proof.
  intros Hs. rewrite bind_request_unexpected by done. by repeat split.
Qed.

Lemma stops_at_after {A B} (m : M A) (k : A -> M B) w a before before'
    w' req kind :
  result (m w) = Ok a ->
  before' = (issued (m w) ++ before)%list ->
  stops_at (k a (final (m w))) before w' req kind ->
  stops_at (bind m k w) before' w' req kind.
Proof.
  intros Hm -> (Hr & Hf & Hi). rewrite (bind_ok _ _ _ _ Hm).
  repeat split; cbn [result final issued]; try done.
  by rewrite Hi, app_assoc.
Qed.

Lemma stops_at_after_request {B} dh meth u hdrs body expects throws
    (k : Response -> M B) w before w' req kind :
  let req0 := mkRequest meth u (dh ++ hdrs) body in
  status (fst (request w req0)) ∈ expects ->
  stops_at (k (fst (request w req0)) (snd (request w req0)))
           before w' req kind ->
  stops_at (bind (make_request dh meth u hdrs body expects throws) k w)
           (req0 :: before) w' req kind.
Proof.
  intros req0 Hs Hk.
  eapply stops_at_after;
    [by apply make_request_expected
    | by rewrite make_request_issued
    | by rewrite make_request_final].
Qed.

Lemma stops_at_after_json {B} resp data (k : Json -> M B) w before w' req kind :
  json_body resp = Some data ->
  stops_at (k data w) before w' req kind ->
  stops_at (bind (resp_json resp) k w) before w' req kind.
Proof. intros Hj Hk. unfold resp_json. by rewrite Hj, bind_ret. Qed.

Lemma stops_at_lift {A B} (r : Result A) (k : A -> M B) w a before w' req kind :
  r = Ok a ->
  stops_at (k a w) before w' req kind ->
  stops_at (bind (lift r) k w) before w' req kind.
Proof. intros ->. by rewrite bind_lift_ok. Qed.

Lemma stops_at_returning {A} (f : A -> PyVal) (m : M A) before w w' req kind :
  stops_at (m w) before w' req kind ->
  stops_at (returning f m w) before w' req kind.
Proof.
  intros (Hr & Hf & Hi). unfold stops_at.
  by rewrite returning_result, returning_issued, returning_final, Hr.
Qed.

Lemma not_in_one (s x : Z) : s <> x -> s ∉ [x].
Proof. by rewrite list_elem_of_singleton. Qed.

Lemma box_metadata_stops self path w p :
  BoxPath_init path = Ok p ->
  status (fst (request w (metadata_request self p))) <> 200 ->
  stops_at (Box.metadata self path w) [] w (metadata_request self p)
           MetadataError.
Proof.
  intros Hp Hs. destruct (metadata_wire self path w p Hp) as [Hi Hf].
  repeat split; try done. by apply metadata_unexpected.
Qed.

Lemma box_download_stops self path revision w p :
  BoxPath_init path = Ok p ->
  status (fst (request w (download_request self p revision))) <> 200 ->
  stops_at (Box.download self path revision w) []
           w (download_request self p revision) DownloadError.
Proof.
  intros Hp. unfold Box.download, download_request.
  rewrite Hp, bind_lift_ok. intros Hs.
  destruct revision as [r|];
    [destruct (negb (String.eqb r "") && negb (String.eqb r (_id p)))|];
    by apply (stops_at_request (Box.default_headers self)), not_in_one.
Qed.

Lemma box_upload_create_stops self stream p ud w :
  make_upload_data stream (_id p) (name (box_base p)) = Ok ud ->
  status (fst (request w (create_request self ud))) ∉ [200; 201] ->
  stops_at (Box._upload_create self stream p w) [] w
           (create_request self ud) UploadError.
Proof.
  intros Hud Hs. unfold Box._upload_create. rewrite Hud, bind_lift_ok.
  by apply (stops_at_request (Box.default_headers self)).
Qed.

Lemma box_upload_update_stops self stream p ud meta mp q w :
  make_upload_data stream (_id p) (name (box_base p)) = Ok ud ->
  getitem meta "path" = Ok (JStr mp) ->
  BoxPath_init mp = Ok q ->
  status (fst (request w (update_request self (_id q) ud))) ∉ [200; 201] ->
  stops_at (Box._upload_update self stream p meta w) [] w
           (update_request self (_id q) ud) UploadError.
Proof.
  intros Hud Hmp Hq Hs. unfold Box._upload_update.
  rewrite Hmp, bind_lift_ok. simpl. rewrite Hq, bind_lift_ok.
  rewrite Hud, bind_lift_ok.
  by apply (stops_at_request (Box.default_headers self)).
Qed.

Lemma stops_at_bind {A B} (m : M A) (k : A -> M B) w before w' req kind :
  stops_at (m w) before w' req kind ->
  stops_at (bind m k w) before w' req kind.
Proof.
  intros (Hr & Hf & Hi). rewrite (bind_raise _ _ _ _ Hr). by repeat split.
Qed.

(** Box's [upload]: an unexpected answer to the upload request. *)
Lemma box_upload_stops self stream path w p ud :
  BoxPath_init (os_path_join (Box.folder self) path) = Ok p ->
  make_upload_data stream (_id p) (name (box_base p)) = Ok ud ->
  let probe := Box.metadata self (str (box_base p)) w in
  (forall e, result probe = Raise e -> ekind e = MetadataError ->
     status (fst (request (final probe) (create_request self ud)))
       ∉ [200; 201] ->
     stops_at (Box.upload self stream path w) (issued probe) (final probe)
              (create_request self ud) UploadError)
  /\ (forall meta mp q,
        result probe = Ok meta ->
        getitem meta "path" = Ok (JStr mp) ->
        BoxPath_init mp = Ok q ->
        status (fst (request (final probe) (update_request self (_id q) ud)))
          ∉ [200; 201] ->
        stops_at (Box.upload self stream path w) (issued probe) (final probe)
                 (update_request self (_id q) ud) UploadError).
Proof.
  intros Hp Hud probe. rewrite (upload_unfold _ _ _ _ _ Hp), bind_attempt.
  fold probe. split.
  - intros e He Hk Hs. rewrite He, decide_True by done.
    assert (Hstop : stops_at
              (bind (data <- Box._upload_create self stream p ;;
                     ret (data, true)) (upload_tail self) (final probe))
              [] (final probe) (create_request self ud) UploadError)
      by (do 2 apply stops_at_bind; by apply box_upload_create_stops).
    destruct Hstop as (Hr & Hf & Hi).
    repeat split; cbn [result final issued]; try done. by rewrite Hi.
  - intros meta mp q Hm Hmp Hq Hs. rewrite Hm.
    assert (Hstop : stops_at
              (bind (data <- Box._upload_update self stream p meta ;;
                     ret (data, false)) (upload_tail self) (final probe))
              [] (final probe) (update_request self (_id q) ud) UploadError)
      by (do 2 apply stops_at_bind; by eapply box_upload_update_stops).
    destruct Hstop as (Hr & Hf & Hi).
    repeat split; cbn [result final issued]; try done. by rewrite Hi.
Qed.

(** Box's [upload]: an unexpected answer to the probe.  The probe raises
    [MetadataError], [upload] catches it and goes on to the create-upload. *)
Lemma box_upload_probe_caught self stream path w p ud :
  BoxPath_init (os_path_join (Box.folder self) path) = Ok p ->
  make_upload_data stream (_id p) (name (box_base p)) = Ok ud ->
  status (fst (request w (metadata_request self p))) <> 200 ->
  let w1 := snd (request w (metadata_request self p)) in
  stops_at (Box.metadata self (str (box_base p)) w) [] w
           (metadata_request self p) MetadataError
  /\ issued (Box.upload self stream path w)
     = [metadata_request self p; create_request self ud]
  /\ final (Box.upload self stream path w)
     = snd (request w1 (create_request self ud))
  /\ (status (fst (request w1 (create_request self ud))) ∉ [200; 201] ->
      stops_at (Box.upload self stream path w) [metadata_request self p] w1
               (create_request self ud) UploadError).
Proof.
  intros Hp Hud Hs w1. pose proof (BoxPath_init_again _ _ Hp) as Hp'.
  pose proof (box_metadata_stops self _ w _ Hp' Hs) as Hprobe.
  split; [exact Hprobe|]. destruct Hprobe as (Hr & Hf & Hi).
  fold w1 in Hf. simpl in Hi.
  destruct (box_upload_stops self stream path w p ud Hp Hud) as [Hc _].
  cbv zeta in Hc. specialize (Hc _ Hr eq_refl). rewrite Hf, Hi in Hc.
  rewrite (upload_unfold _ _ _ _ _ Hp), bind_attempt in *.
  rewrite Hr, Hf, Hi in *. cbn [result final issued ekind] in *.
  rewrite decide_True in * by done.
  assert (Hwire : issued (bind (data <- Box._upload_create self stream p ;;
                                ret (data, true)) (upload_tail self) w1)
                  = [create_request self ud]
                  /\ final (bind (data <- Box._upload_create self stream p ;;
                                  ret (data, true)) (upload_tail self) w1)
                     = snd (request w1 (create_request self ud))).
  { rewrite bind_quiet_issued, bind_quiet_final by apply upload_tail_quiet.
    rewrite bind_quiet_issued, bind_quiet_final by quiet_steps.
    by apply upload_create_wire. }
  destruct Hwire as [Hwi Hwf].
  split; [by rewrite Hwi|]. split; [exact Hwf|]. exact Hc.
Qed.

(** Box's [delete]: an unexpected answer to the probe, or to the DELETE. *)
Lemma box_delete_stops self path w p :
  BoxPath_init path = Ok p ->
  let probe := Box.metadata self (str (box_base p)) w in
  (status (fst (request w (metadata_request self p))) <> 200 ->
   stops_at (Box.delete self path w) [] w (metadata_request self p)
            MetadataError)
  /\ (forall meta, result probe = Ok meta ->
        status (fst (request (final probe) (delete_request self (_id p))))
          <> 204 ->
        stops_at (Box.delete self path w) [metadata_request self p]
                 (final probe) (delete_request self (_id p)) DeleteError).
Proof.
  intros Hp probe. pose proof (BoxPath_init_again _ _ Hp) as Hp'.
  rewrite (box_delete_unfold _ _ _ _ Hp). fold probe. split.
  - intros Hs. apply stops_at_bind. by apply box_metadata_stops.
  - intros meta Hm Hs.
    destruct (metadata_wire self _ w _ Hp') as [Hi _].
    eapply (stops_at_after _ _ _ _ []); [exact Hm | by rewrite Hi |].
    by apply (stops_at_request (Box.default_headers self)), not_in_one.
Qed.

(** Box's [revisions]: an unexpected answer to the version listing, or to
    the metadata request that follows it. *)
Lemma box_revisions_stops self path w p :
  BoxPath_init path = Ok p ->
  let listing := versions_request self (_id p) in
  (status (fst (request w listing)) <> 200 ->
   stops_at (Box.revisions self path w) [] w listing RevisionsError)
  /\ (forall data,
        status (fst (request w listing)) = 200 ->
        json_body (fst (request w listing)) = Some data ->
        status (fst (request (snd (request w listing))
                             (metadata_request self p))) <> 200 ->
        stops_at (Box.revisions self path w) [listing]
                 (snd (request w listing)) (metadata_request self p)
                 MetadataError).
Proof.
  intros Hp listing. pose proof (BoxPath_init_again _ _ Hp) as Hp'.
  unfold Box.revisions. rewrite Hp, bind_lift_ok. cbv zeta. split.
  - intros Hs.
    by apply (stops_at_request (Box.default_headers self)), not_in_one.
  - intros data Hs Hj Hm.
    apply (stops_at_after_request (Box.default_headers self));
      [apply list_elem_of_singleton; exact Hs|].
    apply (stops_at_after_json _ data); [exact Hj|].
    apply stops_at_bind. by apply box_metadata_stops.
Qed.

Lemma owncloud_metadata_stops self path w p :
  OwnCloudPath_init path = Ok p ->
  is_file p = true ->
  status (fst (request w (propfind_request self p))) <> 207 ->
  stops_at (OwnCloud.metadata self path w) [] w (propfind_request self p)
           MetadataError.
Proof.
  intros Hp Hf Hs. unfold OwnCloud.metadata. rewrite Hp, bind_lift_ok.
  unfold is_file in Hf. apply negb_true_iff in Hf. rewrite Hf.
  apply stops_at_bind. unfold OwnCloud._metadata_file.
  by apply (stops_at_request (OwnCloud.default_headers self)), not_in_one.
Qed.

Lemma owncloud_download_stops self path w p :
  OwnCloudPath_init path = Ok p ->
  is_file p = true ->
  status (fst (request w (owncloud_get_request self p))) <> 200 ->
  stops_at (OwnCloud.download self path w) [] w (owncloud_get_request self p)
           DownloadError.
Proof.
  intros Hp Hf Hs. unfold OwnCloud.download. rewrite Hp, bind_lift_ok, Hf.
  by apply (stops_at_request (OwnCloud.default_headers self)), not_in_one.
Qed.

Lemma owncloud_upload_stops self stream path w :
  status (fst (request w (owncloud_put_request self stream path))) <> 201 ->
  stops_at (OwnCloud.upload self stream path w) [] w
           (owncloud_put_request self stream path) UploadError.
Proof.
  intros Hs. unfold OwnCloud.upload.
  by apply (stops_at_request (OwnCloud.default_headers self)), not_in_one.
Qed.

Lemma owncloud_delete_stops self path w :
  status (fst (request w (owncloud_delete_request self path))) <> 204 ->
  stops_at (OwnCloud.delete self path w) [] w
           (owncloud_delete_request self path) DeleteError.
Proof.
  intros Hs. unfold OwnCloud.delete.
  by apply (stops_at_request (OwnCloud.default_headers self)), not_in_one.
Qed.

End UnexpectedStatus.

Section DeclaredKinds.
Context `{Collaborators}.

(** C4, as the code has it.  Every request is sent once, and an answer
    whose status is outside the success set declared for that request
    raises, at that request, the error kind declared for it, carrying the
    status; the request is not repeated.  Everywhere but in the probe of
    Box's [upload] that error ends the operation: nothing is sent
    afterwards.  The declared kind is the one of the operation's family for
    the request that is the operation's own: [MetadataError] for
    [metadata], [DownloadError] for [download], [UploadError] for the
    upload request, [DeleteError] for the DELETE, [RevisionsError] for the
    version listing.  The metadata request that Box's [delete] issues
    first, and the one Box's [revisions] issues after the listing, raise
    [MetadataError] and end the operation.  The metadata request that
    Box's [upload] issues first raises [MetadataError] inside [upload]
    only: [upload] catches it and sends the create-upload next, whose own
    unexpected status then ends the operation with [UploadError]. *)
Theorem unexpected_status_raises_declared_kind :
  (* Box *)
  (forall self path w p,
     BoxPath_init path = Ok p ->
     status (fst (request w (metadata_request self p))) <> 200 ->
     stops_at (Box.metadata self path w) [] w (metadata_request self p)
              MetadataError)
  /\ (forall self path revision w p,
        BoxPath_init path = Ok p ->
        status (fst (request w (download_request self p revision))) <> 200 ->
        stops_at (Box.download self path revision w) []
                 w (download_request self p revision) DownloadError)
  /\ (forall self stream path w p ud,
        BoxPath_init (os_path_join (Box.folder self) path) = Ok p ->
        make_upload_data stream (_id p) (name (box_base p)) = Ok ud ->
        status (fst (request w (metadata_request self p))) <> 200 ->
        let w1 := snd (request w (metadata_request self p)) in
        stops_at (Box.metadata self (str (box_base p)) w) [] w
                 (metadata_request self p) MetadataError
        /\ issued (Box.upload self stream path w)
           = [metadata_request self p; create_request self ud]
        /\ final (Box.upload self stream path w)
           = snd (request w1 (create_request self ud))
        /\ (status (fst (request w1 (create_request self ud))) ∉ [200; 201] ->
            stops_at (Box.upload self stream path w)
                     [metadata_request self p] w1
                     (create_request self ud) UploadError))
  /\ (forall self stream path w p ud,
        BoxPath_init (os_path_join (Box.folder self) path) = Ok p ->
        make_upload_data stream (_id p) (name (box_base p)) = Ok ud ->
        let probe := Box.metadata self (str (box_base p)) w in
        (forall e, result probe = Raise e -> ekind e = MetadataError ->
           status (fst (request (final probe) (create_request self ud)))
             ∉ [200; 201] ->
           stops_at (Box.upload self stream path w) (issued probe)
                    (final probe) (create_request self ud) UploadError)
        /\ (forall meta mp q,
              result probe = Ok meta ->
              getitem meta "path" = Ok (JStr mp) ->
              BoxPath_init mp = Ok q ->
              status (fst (request (final probe)
                                   (update_request self (_id q) ud)))
                ∉ [200; 201] ->
              stops_at (Box.upload self stream path w) (issued probe)
                       (final probe) (update_request self (_id q) ud)
                       UploadError))
  /\ (forall self path w p,
        BoxPath_init path = Ok p ->
        let probe := Box.metadata self (str (box_base p)) w in
        (status (fst (request w (metadata_request self p))) <> 200 ->
         stops_at (Box.delete self path w) [] w (metadata_request self p)
                  MetadataError)
        /\ (forall meta, result probe = Ok meta ->
              status (fst (request (final probe)
                                   (delete_request self (_id p)))) <> 204 ->
              stops_at (Box.delete self path w) [metadata_request self p]
                       (final probe) (delete_request self (_id p))
                       DeleteError))
  /\ (forall self path w p,
        BoxPath_init path = Ok p ->
        let listing := versions_request self (_id p) in
        (status (fst (request w listing)) <> 200 ->
         stops_at (Box.revisions self path w) [] w listing RevisionsError)
        /\ (forall data,
              status (fst (request w listing)) = 200 ->
              json_body (fst (request w listing)) = Some data ->
              status (fst (request (snd (request w listing))
                                   (metadata_request self p))) <> 200 ->
              stops_at (Box.revisions self path w) [listing]
                       (snd (request w listing)) (metadata_request self p)
                       MetadataError))
  (* OwnCloud *)
  /\ (forall self path w p,
        OwnCloudPath_init path = Ok p ->
        is_file p = true ->
        status (fst (request w (propfind_request self p))) <> 207 ->
        stops_at (OwnCloud.metadata self path w) [] w
                 (propfind_request self p) MetadataError)
  /\ (forall self path w p,
        OwnCloudPath_init path = Ok p ->
        is_file p = true ->
        status (fst (request w (owncloud_get_request self p))) <> 200 ->
        stops_at (OwnCloud.download self path w) [] w
                 (owncloud_get_request self p) DownloadError)
  /\ (forall self stream path w,
        status (fst (request w (owncloud_put_request self stream path)))
          <> 201 ->
        stops_at (OwnCloud.upload self stream path w) [] w
                 (owncloud_put_request self stream path) UploadError)
  /\ (forall self path w,
        status (fst (request w (owncloud_delete_request self path))) <> 204 ->
        stops_at (OwnCloud.delete self path w) [] w
                 (owncloud_delete_request self path) DeleteError).
Proof.
  split; [exact box_metadata_stops|].
  split; [exact box_download_stops|].
  split; [exact box_upload_probe_caught|].
  split; [exact box_upload_stops|].
  split; [exact box_delete_stops|].
  split; [exact box_revisions_stops|].
  split; [exact owncloud_metadata_stops|].
  split; [exact owncloud_download_stops|].
  split; [exact owncloud_upload_stops|].
  exact owncloud_delete_stops.
Qed.

End DeclaredKinds.

(** C4, as stated, fails on Box's [delete]: against a backend that answers
    500 to everything, the operation raises [MetadataError], the kind of
    the probe it issues first, not [DeleteError]. *)
Lemma box_delete_500_raises_MetadataError :
  Box.delete (H := Replay.always 500) Replay.box "/7/a.txt" tt
  = mkOutcome (H := Replay.always 500)
      (Raise (mkExn MetadataError (Some 500))) tt
      [file_request Replay.box "7"]
  /\ ~ status_error_contract.
Proof.
  split; [reflexivity|]. intros Hc.
  destruct (Hc (Replay.always 500) (BoxAdapter Replay.box)
               (CallDelete "/7/a.txt") _ tt 500 eq_refl)
    as (e & He & Hk).
  - simpl. rewrite list_elem_of_singleton. discriminate.
  - reflexivity.
  - discriminate.
  - simpl in He. injection He as <-. discriminate Hk.
Qed.

Lemma unexpected_status_raises_declared_kind_witness :
  stops_at (H := Replay.session)
    (OwnCloud.delete (H := Replay.session) Replay.owncloud "a.txt"
       [Replay.answer 500])
    [] [Replay.answer 500] (owncloud_delete_request Replay.owncloud "a.txt")
    DeleteError
  /\ stops_at (H := Replay.session)
       (Box.delete (H := Replay.session) Replay.box "/7/a.txt"
          [Replay.answer_json 200 (Replay.box_file "7" "a.txt");
           Replay.answer 500])
       [file_request Replay.box "7"] [Replay.answer 500]
       (delete_request Replay.box "7") DeleteError
  /\ stops_at (H := Replay.session)
       (Box.upload (H := Replay.session) Replay.box Replay.five_bytes
          "notes.txt" [Replay.answer 500; Replay.answer 500])
       [file_request Replay.box "11446498"] [Replay.answer 500]
       (create_request Replay.box Replay.five_bytes_encoded) UploadError.
Proof.
  pose proof (unexpected_status_raises_declared_kind (H := Replay.session))
    as (_ & _ & Hprobe & _ & Hbox & _ & _ & _ & _ & Hown).
  split; [|split].
  - apply Hown. discriminate.
  - pose proof (Hbox Replay.box "/7/a.txt"
                  [Replay.answer_json 200 (Replay.box_file "7" "a.txt");
                   Replay.answer 500] _ eq_refl) as Hb.
    cbv zeta in Hb. destruct Hb as [_ Hb].
    apply (Hb _ eq_refl). discriminate.
  - pose proof (Hprobe Replay.box Replay.five_bytes "notes.txt"
                  [Replay.answer 500; Replay.answer 500] _ _
                  eq_refl eq_refl) as Hu.
    cbv zeta in Hu. destruct Hu as (_ & _ & _ & Hu); [discriminate|].
    apply Hu. intros Hin.
    apply elem_of_cons in Hin as [Hin|Hin]; [discriminate|].
    apply list_elem_of_singleton in Hin. discriminate.
Defined.

(** ** Box: revisions without a version listing *)

Section BoxRevisionsListing.
Context `{Collaborators}.
Variable self : Box.BoxProvider.

(** C3.  Box's [revisions] does not always return.  It asks for the
    version listing first and accepts only a 200: on any other answer (the
    403 of an account without version history included) it raises
    [RevisionsError] carrying that status, the listing is the only request
    it has sent, and the [metadata] call that would give the current
    version as revision 1 is never made. *)
Theorem box_revisions_needs_listing path w p :
  BoxPath_init path = Ok p ->
  status (fst (request w (versions_request self (_id p)))) <> 200 ->
  Box.revisions self path w
  = mkOutcome
      (Raise (mkExn RevisionsError
                (Some (status (fst (request w
                                         (versions_request self (_id p))))))))
      (snd (request w (versions_request self (_id p))))
      [versions_request self (_id p)]
  /\ metadata_request self p ∉ issued (Box.revisions self path w).
Proof.
  intros Hp Hs.
  destruct (box_revisions_stops self path w p Hp) as [Hstop _].
  cbv zeta in Hstop. destruct (Hstop Hs) as (Hr & Hf & Hi).
  split.
  - rewrite <- (outcome_eta (Box.revisions self path w)).
    by rewrite Hr, Hf, Hi.
  - rewrite Hi. simpl. rewrite list_elem_of_singleton.
    unfold metadata_request. destruct (is_file (box_base p)); discriminate.
Qed.

End BoxRevisionsListing.

Lemma box_revisions_needs_listing_witness :
  Box.revisions (H := Replay.session) Replay.box "/7/a.txt"
    Replay.unversioned_script
  = mkOutcome (H := Replay.session)
      (Raise (mkExn RevisionsError (Some 403)))
      [Replay.answer_json 200 (Replay.box_file "7" "a.txt")]
      [versions_request Replay.box "7"]
  /\ result (Box.metadata (H := Replay.session) Replay.box "/7/a.txt"
               [Replay.answer_json 200 (Replay.box_file "7" "a.txt")])
     = Ok (JObj [("kind", JStr "file"); ("name", JStr "a.txt");
                 ("path", JStr "/7/a.txt")]).
Proof.
  split; [|reflexivity].
  refine (proj1 (box_revisions_needs_listing (H := Replay.session) Replay.box
                   "/7/a.txt" Replay.unversioned_script _ eq_refl _)).
  discriminate.
Defined.

(** * Further properties of the two providers *)

(** ** What goes on the wire *)

Section Traffic.
Context `{Collaborators}.

Lemma sends_quiet {A} P (m : M A) : quiet m -> sends P m.
Proof. intros Hq w. destruct (Hq w) as [-> _]. constructor. Qed.

Lemma sends_bind {A B} P (m : M A) (k : A -> M B) :
  sends P m -> (forall a, sends P (k a)) -> sends P (bind m k).
Proof.
  intros Hm Hk w. unfold bind.
  destruct (result (m w)) as [a|e]; cbn [issued].
  - apply Forall_app. split; [apply Hm | apply Hk].
  - apply Hm.
Qed.

Lemma sends_attempt {A} P (m : M A) : sends P m -> sends P (attempt m).
Proof. intros Hm w. apply Hm. Qed.

Lemma sends_request P dh meth u hdrs body expects throws :
  P (mkRequest meth u (dh ++ hdrs) body) ->
  sends P (make_request dh meth u hdrs body expects throws).
Proof. intros HP w. rewrite make_request_issued. by repeat constructor. Qed.

Lemma at_most_quiet {A} n (m : M A) : quiet m -> at_most n m.
Proof. intros Hq w. destruct (Hq w) as [-> _]. simpl. lia. Qed.

Lemma at_most_bind {A B} a b n (m : M A) (k : A -> M B) :
  at_most a m -> (forall x, at_most b (k x)) -> (a + b <= n)%nat ->
  at_most n (bind m k).
Proof.
  intros Hm Hk Hn w. unfold bind. specialize (Hm w).
  destruct (result (m w)) as [x|e]; cbn [issued].
  - rewrite length_app. specialize (Hk x (final (m w))). lia.
  - lia.
Qed.

Lemma at_most_attempt {A} n (m : M A) : at_most n m -> at_most n (attempt m).
Proof. intros Hm w. apply Hm. Qed.

Lemma at_most_request dh meth u hdrs body expects throws :
  at_most 1 (make_request dh meth u hdrs body expects throws).
Proof. intros w. by rewrite make_request_issued. Qed.

(** A request followed by quiet steps. *)
Lemma sends_request_then {B} P dh meth u hdrs body expects throws
    (k : Response -> M B) :
  P (mkRequest meth u (dh ++ hdrs) body) ->
  (forall r, quiet (k r)) ->
  sends P (bind (make_request dh meth u hdrs body expects throws) k).
Proof.
  intros HP Hk. apply sends_bind; [by apply sends_request|].
  intros r. by apply sends_quiet.
Qed.

Lemma at_most_request_then {B} dh meth u hdrs body expects throws
    (k : Response -> M B) :
  (forall r, quiet (k r)) ->
  at_most 1 (bind (make_request dh meth u hdrs body expects throws) k).
Proof.
  intros Hk. eapply (at_most_bind 1 0); [apply at_most_request| |lia].
  intros r. by apply at_most_quiet.
Qed.

End Traffic.

Ltac traffic_steps :=
  repeat first
    [ progress intros
    | apply sends_request_then; [|quiet_steps]
    | apply at_most_request_then; quiet_steps
    | apply sends_quiet; quiet_steps; fail
    | apply at_most_quiet; quiet_steps; fail
    | apply sends_attempt
    | apply at_most_attempt
    | apply sends_bind
    | match goal with
      | |- sends _ (match ?x with _ => _ end) => destruct x
      | |- at_most _ (match ?x with _ => _ end) => destruct x
      | |- sends _ (if ?b then _ else _) => destruct b
      | |- at_most _ (if ?b then _ else _) => destruct b
      end ].

Section BoxTraffic.
Context `{Collaborators}.
Variable self : Box.BoxProvider.

Lemma box_authorized_base meth segments query hdrs body :
  box_authorized self
    (mkRequest meth (Box.build_url self segments query)
               (Box.default_headers self ++ hdrs) body).
Proof. split; [done|]. exists segments, query. by left. Qed.

Lemma box_authorized_upload meth segments query hdrs body :
  box_authorized self
    (mkRequest meth (Box._build_upload_url self segments query)
               (Box.default_headers self ++ hdrs) body).
Proof. split; [done|]. exists segments, query. by right. Qed.

Lemma box_metadata_sends P path :
  (forall p, P (metadata_request self p)) ->
  sends P (Box.metadata self path).
Proof.
  intros HP. unfold Box.metadata. apply sends_bind; [by apply sends_quiet, quiet_lift|].
  intros p. specialize (HP p). unfold metadata_request in HP.
  destruct (is_file (box_base p)).
  - unfold Box._get_file_meta. apply sends_request_then; [exact HP|quiet_steps].
  - unfold Box._get_folder_meta. apply sends_request_then; [exact HP|quiet_steps].
Qed.

Lemma box_metadata_at_most path : at_most 1 (Box.metadata self path).
Proof.
  unfold Box.metadata. eapply (at_most_bind 0 1); [by apply at_most_quiet, quiet_lift| |lia].
  intros p. destruct (is_file (box_base p)).
  - unfold Box._get_file_meta. apply at_most_request_then. quiet_steps.
  - unfold Box._get_folder_meta. apply at_most_request_then. quiet_steps.
Qed.

(** Every request that any operation of the Box provider issues carries
    the bearer token as its first header and goes to one of the two
    configured base URLs. *)
Theorem box_requests_authorized :
  (forall path, sends (box_authorized self) (Box.metadata self path))
  /\ (forall path revision,
        sends (box_authorized self) (Box.download self path revision))
  /\ (forall stream path,
        sends (box_authorized self) (Box.upload self stream path))
  /\ (forall path, sends (box_authorized self) (Box.delete self path))
  /\ (forall path, sends (box_authorized self) (Box.revisions self path)).
Proof.
  assert (Hmeta : forall path,
            sends (box_authorized self) (Box.metadata self path)).
  { intros path. apply box_metadata_sends. intros p.
    unfold metadata_request. destruct (is_file (box_base p));
      apply (box_authorized_base _ _ _ []). }
  split; [exact Hmeta|]. split; [|split; [|split]].
  - intros path revision. unfold Box.download.
    apply sends_bind; [by apply sends_quiet, quiet_lift|]. intros p.
    destruct revision as [r|];
      [destruct (negb (String.eqb r "") && negb (String.eqb r (_id p)))|];
      (apply sends_request_then; [apply box_authorized_base|quiet_steps]).
  - intros stream path. unfold Box.upload.
    apply sends_bind; [by apply sends_quiet, quiet_lift|]. intros p.
    apply sends_bind; [apply sends_attempt, Hmeta|]. intros probe.
    apply sends_bind; [|intros; apply sends_quiet; quiet_steps].
    destruct probe as [meta|e].
    + apply sends_bind; [|intros; apply sends_quiet; quiet_steps].
      unfold Box._upload_update.
      do 3 (apply sends_bind; [by apply sends_quiet, quiet_lift|]; intros ?).
      apply sends_request_then; [apply box_authorized_upload|quiet_steps].
    + destruct (decide (ekind e = MetadataError));
        [|by apply sends_quiet, quiet_raise].
      apply sends_bind; [|intros; apply sends_quiet; quiet_steps].
      unfold Box._upload_create.
      apply sends_bind; [by apply sends_quiet, quiet_lift|]. intros ud.
      apply sends_request_then; [apply box_authorized_upload|quiet_steps].
  - intros path. unfold Box.delete.
    apply sends_bind; [by apply sends_quiet, quiet_lift|]. intros p.
    apply sends_bind; [apply Hmeta|]. intros _.
    apply sends_request_then; [apply box_authorized_base|quiet_steps].
  - intros path. unfold Box.revisions.
    apply sends_bind; [by apply sends_quiet, quiet_lift|]. intros p.
    apply sends_bind;
      [apply sends_request; apply box_authorized_base|]. intros resp.
    apply sends_bind; [by apply sends_quiet, quiet_resp_json|]. intros data.
    cbv zeta.
    apply sends_bind; [apply Hmeta|]. intros curr.
    apply sends_quiet. quiet_steps.
Qed.

End BoxTraffic.

Section BoxBudget.
Context `{Collaborators}.
Variable self : Box.BoxProvider.

Lemma box_metadata_reads path : sends get_only (Box.metadata self path).
Proof.
  apply box_metadata_sends. intros p. unfold metadata_request.
  by destruct (is_file (box_base p)).
Qed.

(** The operations of the Box provider that read ([metadata], [download],
    [revisions]) issue GET requests without a body and nothing else; and no
    operation issues more than two requests: one for [metadata] and
    [download], two for [upload], [delete] and [revisions]. *)
Theorem box_reads_and_request_budget :
  (forall path,
     sends get_only (Box.metadata self path)
     /\ at_most 1 (Box.metadata self path))
  /\ (forall path revision,
        sends get_only (Box.download self path revision)
        /\ at_most 1 (Box.download self path revision))
  /\ (forall path,
        sends get_only (Box.revisions self path)
        /\ at_most 2 (Box.revisions self path))
  /\ (forall stream path, at_most 2 (Box.upload self stream path))
  /\ (forall path, at_most 2 (Box.delete self path)).
Proof.
  split; [|split; [|split; [|split]]].
  - intros path. split; [apply box_metadata_reads|apply box_metadata_at_most].
  - intros path revision. unfold Box.download. split.
    + apply sends_bind; [by apply sends_quiet, quiet_lift|]. intros p.
      destruct revision as [r|];
        [destruct (negb (String.eqb r "") && negb (String.eqb r (_id p)))|];
        (apply sends_request_then; [done|quiet_steps]).
    + eapply (at_most_bind 0 1); [by apply at_most_quiet, quiet_lift| |lia].
      intros p.
      destruct revision as [r|];
        [destruct (negb (String.eqb r "") && negb (String.eqb r (_id p)))|];
        (apply at_most_request_then; quiet_steps).
  - intros path. unfold Box.revisions. split.
    + apply sends_bind; [by apply sends_quiet, quiet_lift|]. intros p.
      apply sends_bind; [by apply sends_request|].
      intros resp.
      apply sends_bind; [by apply sends_quiet, quiet_resp_json|]. intros data.
      cbv zeta. apply sends_bind; [apply box_metadata_reads|]. intros curr.
      apply sends_quiet. quiet_steps.
    + eapply (at_most_bind 0 2); [by apply at_most_quiet, quiet_lift| |lia].
      intros p.
      eapply (at_most_bind 1 1); [apply at_most_request| |lia]. intros resp.
      eapply (at_most_bind 0 1);
        [by apply at_most_quiet, quiet_resp_json| |lia]. intros data.
      cbv zeta.
      eapply (at_most_bind 1 0); [apply box_metadata_at_most| |lia].
      intros curr. apply at_most_quiet. quiet_steps.
  - intros stream path. unfold Box.upload.
    eapply (at_most_bind 0 2); [by apply at_most_quiet, quiet_lift| |lia].
    intros p.
    eapply (at_most_bind 1 1);
      [apply at_most_attempt, box_metadata_at_most| |lia]. intros probe.
    eapply (at_most_bind 1 0); [| |lia];
      [|intros; apply at_most_quiet; quiet_steps].
    destruct probe as [meta|e].
    + eapply (at_most_bind 1 0); [| |lia];
        [|intros; apply at_most_quiet; quiet_steps].
      unfold Box._upload_update.
      do 3 (eapply (at_most_bind 0 1);
            [by apply at_most_quiet, quiet_lift| |lia]; intros ?).
      apply at_most_request_then. quiet_steps.
    + destruct (decide (ekind e = MetadataError));
        [|by apply at_most_quiet, quiet_raise].
      eapply (at_most_bind 1 0); [| |lia];
        [|intros; apply at_most_quiet; quiet_steps].
      unfold Box._upload_create.
      eapply (at_most_bind 0 1); [by apply at_most_quiet, quiet_lift| |lia].
      intros ud. apply at_most_request_then. quiet_steps.
  - intros path. unfold Box.delete.
    eapply (at_most_bind 0 2); [by apply at_most_quiet, quiet_lift| |lia].
    intros p.
    eapply (at_most_bind 1 1); [apply box_metadata_at_most| |lia]. intros _.
    apply at_most_request_then. quiet_steps.
Qed.

End BoxBudget.

Section OwnCloudTraffic.
Context `{Collaborators}.
Variable self : OwnCloud.OwnCloudProvider.

Lemma owncloud_wire_request meth rest hdrs body :
  owncloud_wire self meth rest body
    (mkRequest meth (UrlStr (OwnCloud.webdav_url self +:+ rest))
               (OwnCloud.default_headers self ++ hdrs) body).
Proof. done. Qed.

Lemma sends_after_lift {A B} P (r : Result A) (k : A -> M B) :
  (forall a, r = Ok a -> sends P (k a)) -> sends P (bind (lift r) k).
Proof.
  intros Hk w. destruct r as [a|e].
  - rewrite bind_lift_ok. by apply Hk.
  - rewrite bind_lift_raise. constructor.
Qed.

(** Every operation of the OwnCloud provider issues at most one request.
    That request carries the encoded credentials as its first header and
    its URL is the WebDAV root followed by the path: the text of the
    validated path for [metadata] and [download], the path argument as it
    was given for [upload] and [delete].  [metadata] sends a PROPFIND and
    [download] a GET, both without a body; [upload] sends a PUT whose body
    is the stream; [delete] sends a DELETE without a body. *)
Theorem owncloud_requests_authorized :
  (forall path,
     sends (fun req => exists p,
              OwnCloudPath_init path = Ok p
              /\ owncloud_wire self PROPFIND (path_attr p) None req)
           (OwnCloud.metadata self path)
     /\ at_most 1 (OwnCloud.metadata self path))
  /\ (forall path,
        sends (fun req => exists p,
                 OwnCloudPath_init path = Ok p
                 /\ owncloud_wire self GET (path_attr p) None req)
              (OwnCloud.download self path)
        /\ at_most 1 (OwnCloud.download self path))
  /\ (forall stream path,
        sends (owncloud_wire self PUT path (Some stream))
              (OwnCloud.upload self stream path)
        /\ at_most 1 (OwnCloud.upload self stream path))
  /\ (forall path,
        sends (owncloud_wire self DELETE path None)
              (OwnCloud.delete self path)
        /\ at_most 1 (OwnCloud.delete self path)).
Proof.
  split; [|split; [|split]].
  - intros path. unfold OwnCloud.metadata, OwnCloud._metadata_folder,
      OwnCloud._metadata_file.
    split.
    + apply sends_after_lift. intros p Hp.
      destruct (is_dir p); [by apply sends_quiet, quiet_ret|].
      apply sends_bind; [|intros; by apply sends_quiet, quiet_ret].
      apply sends_request_then; [|unfold resp_read; quiet_steps].
      exists p. split; [exact Hp|]. apply owncloud_wire_request.
    + eapply (at_most_bind 0 1); [by apply at_most_quiet, quiet_lift| |lia].
      intros p. destruct (is_dir p); [by apply at_most_quiet, quiet_ret|].
      eapply (at_most_bind 1 0); [| |lia];
        [|intros; by apply at_most_quiet, quiet_ret].
      apply at_most_request_then. unfold resp_read. quiet_steps.
  - intros path. unfold OwnCloud.download. split.
    + apply sends_after_lift. intros p Hp.
      destruct (negb (is_file p)); [by apply sends_quiet, quiet_raise|].
      apply sends_request_then; [|quiet_steps].
      exists p. split; [exact Hp|]. apply owncloud_wire_request.
    + eapply (at_most_bind 0 1); [by apply at_most_quiet, quiet_lift| |lia].
      intros p.
      destruct (negb (is_file p)); [by apply at_most_quiet, quiet_raise|].
      apply at_most_request_then. quiet_steps.
  - intros stream path. unfold OwnCloud.upload. split.
    + apply sends_request_then; [apply owncloud_wire_request|quiet_steps].
    + apply at_most_request_then. quiet_steps.
  - intros path. unfold OwnCloud.delete. split.
    + apply sends_request_then; [apply owncloud_wire_request|quiet_steps].
    + apply at_most_request_then. quiet_steps.
Qed.

End OwnCloudTraffic.

(** ** Paths that are rejected *)

Section RejectedPaths.
Context `{Collaborators}.

(** When the path type rejects the path, the operations that build a path
    raise the constructor's exception without sending anything: all five
    operations of the Box provider ([upload] for the path joined to the
    configured folder), and [metadata] and [download] of the OwnCloud
    provider.  OwnCloud's [upload] and [delete] build no path value: they
    send their request for any string at all. *)
Theorem rejected_path_sends_nothing :
  (forall self path w e,
     BoxPath_init path = Raise e ->
     Box.metadata self path w = mkOutcome (Raise e) w []
     /\ (forall revision,
           Box.download self path revision w = mkOutcome (Raise e) w [])
     /\ Box.delete self path w = mkOutcome (Raise e) w []
     /\ Box.revisions self path w = mkOutcome (Raise e) w [])
  /\ (forall self stream path w e,
        BoxPath_init (os_path_join (Box.folder self) path) = Raise e ->
        Box.upload self stream path w = mkOutcome (Raise e) w [])
  /\ (forall self path w e,
        OwnCloudPath_init path = Raise e ->
        OwnCloud.metadata self path w = mkOutcome (Raise e) w []
        /\ OwnCloud.download self path w = mkOutcome (Raise e) w [])
  /\ (forall self stream path w,
        issued (OwnCloud.upload self stream path w)
        = [owncloud_put_request self stream path]
        /\ issued (OwnCloud.delete self path w)
           = [owncloud_delete_request self path]).
Proof.
  split; [|split; [|split]].
  - intros self path w e He.
    unfold Box.metadata, Box.download, Box.delete, Box.revisions.
    rewrite He. by repeat split.
  - intros self stream path w e He. unfold Box.upload. by rewrite He.
  - intros self path w e He. unfold OwnCloud.metadata, OwnCloud.download.
    rewrite He. by split.
  - intros self stream path w. unfold OwnCloud.upload, OwnCloud.delete.
    rewrite !bind_quiet_issued by quiet_steps.
    by rewrite !make_request_issued.
Qed.

Lemma has_slash_split s : has_slash s = false <-> snd (split_slash s) = [].
Proof.
  induction s as [|c s IH]; simpl; [done|].
  destruct (split_slash s) as [h t]. simpl in IH.
  destruct (Ascii.eqb c slash); simpl; [done|]. exact IH.
Qed.

(** The Box path constructor, case by case: an empty string or one the
    base class refuses raises [InvalidPathError]; an accepted string
    without any separator raises [IndexError], since [split('/')] has no
    second element; every accepted string with a separator gives a path. *)
Theorem boxpath_needs_separator path :
  (path = "" \/ valid_path path = false ->
   BoxPath_init path = Raise (mkExn InvalidPathError None))
  /\ (path <> "" -> valid_path path = true -> has_slash path = false ->
      BoxPath_init path = Raise (mkExn IndexError None))
  /\ (path <> "" -> valid_path path = true -> has_slash path = true ->
      exists p, BoxPath_init path = Ok p /\ str (box_base p) = path).
Proof.
  unfold BoxPath_init, WaterButlerPath_init. split; [|split].
  - intros [->|Hv]; [done|].
    destruct (String.eqb path ""); [done|]. by rewrite Hv.
  - intros Hne Hv Hs. apply String.eqb_neq in Hne. rewrite Hne, Hv. simpl.
    destruct (String.eqb path "/") eqn:E.
    { apply String.eqb_eq in E. by subst path. }
    simpl. unfold split. apply has_slash_split in Hs.
    destruct (split_slash path) as [h t]. simpl in Hs. by subst t.
  - intros Hne Hv Hs. apply String.eqb_neq in Hne. rewrite Hne, Hv. simpl.
    destruct (String.eqb path "/") eqn:E; simpl; [by eexists|].
    unfold split.
    destruct (split_slash path) as [h t] eqn:Es.
    destruct t as [|x t]; [|by eexists].
    assert (has_slash path = false) as Hn
      by (apply has_slash_split; by rewrite Es).
    congruence.
Qed.

End RejectedPaths.

Lemma rejected_path_sends_nothing_witness :
  Box.delete (H := Replay.session) Replay.box "" [Replay.answer 204]
  = mkOutcome (H := Replay.session)
      (Raise (mkExn InvalidPathError None)) [Replay.answer 204] []
  /\ issued (OwnCloud.delete (H := Replay.session) Replay.owncloud ""
               [Replay.answer 204])
     = [owncloud_delete_request Replay.owncloud ""].
Proof.
  pose proof (rejected_path_sends_nothing (H := Replay.session))
    as (Hbox & _ & _ & Hown).
  split.
  - by apply (Hbox Replay.box "" [Replay.answer 204] _ eq_refl).
  - by apply (Hown Replay.owncloud Replay.five_bytes "" [Replay.answer 204]).
Defined.

Lemma boxpath_needs_separator_witness :
  BoxPath_init (H := Replay.lenient) "notes.txt"
  = Raise (mkExn IndexError None)
  /\ exists p, BoxPath_init (H := Replay.session) "/7/a.txt" = Ok p
               /\ str (box_base p) = "/7/a.txt".
Proof.
  split.
  - by apply (boxpath_needs_separator (H := Replay.lenient) "notes.txt").
  - by apply (boxpath_needs_separator (H := Replay.session) "/7/a.txt").
Defined.

(** ** Box: the two shapes of [metadata] *)

Section BoxMetadataShapes.
Context `{Collaborators}.
Variable self : Box.BoxProvider.

Lemma is_folder_tag_spec ty :
  Box.is_folder_tag ty = true <-> ty = JStr "folder".
Proof.
  destruct ty; simpl; try (split; intros; congruence).
  rewrite String.eqb_eq. split; congruence.
Qed.

(** The loop of the folder listing keeps one record per entry, in order,
    and chooses the serializer by the entry's [type]. *)
Lemma folder_entries_spec items ms :
  Box.folder_entries self items = Ok ms ->
  length ms = length items
  /\ forall (k : nat) item,
       items !! k = Some item ->
       exists ty m,
         getitem item "type" = Ok ty
         /\ ms !! k = Some m
         /\ (ty = JStr "folder" ->
             BoxFolderMetadata item (Box.folder self) = Ok m)
         /\ (ty <> JStr "folder" ->
             BoxFileMetadata item (Box.folder self) = Ok m).
Proof.
  revert ms. induction items as [|item items IH]; intros ms; simpl.
  - intros [= <-]. split; [done|]. intros ? ? ?; done.
  - destruct (getitem item "type") as [ty|] eqn:Et; simpl; [|done].
    destruct (if Box.is_folder_tag ty
              then BoxFolderMetadata item (Box.folder self)
              else BoxFileMetadata item (Box.folder self)) as [m|] eqn:Em;
      simpl; [|done].
    destruct (Box.folder_entries self items) as [ms'|] eqn:Er; simpl; [|done].
    intros [= <-]. destruct (IH _ eq_refl) as [Hlen Hk].
    split; [simpl; by rewrite Hlen|].
    intros [|k] it Hit.
    + injection Hit as <-. exists ty, m. split; [done|]. split; [done|].
      split.
      * intros Hty. apply is_folder_tag_spec in Hty. by rewrite Hty in Em.
      * intros Hty. destruct (Box.is_folder_tag ty) eqn:Ef; [|done].
        by apply is_folder_tag_spec in Ef.
    + by apply Hk.
Qed.

Lemma folder_entries_fails items k item e :
  items !! k = Some item ->
  getitem item "type" = Raise e ->
  exists e', Box.folder_entries self items = Raise e'.
Proof.
  revert k. induction items as [|it items IH]; intros k; [done|].
  destruct k as [|k]; simpl.
  - intros [= ->] ->. by eexists.
  - intros Hk He. destruct (IH k Hk He) as [e' He'].
    destruct (getitem it "type"); simpl; [|by eexists].
    destruct (if Box.is_folder_tag a then _ else _); simpl; [|by eexists].
    rewrite He'. by eexists.
Qed.

(** [metadata] of a directory path, when it returns: the value is a list
    with exactly one record per entry of the backend's answer, in the
    backend's order; an entry whose [type] is ['folder'] is serialized as a
    folder and every other entry as a file; no entry is dropped. *)
Theorem box_folder_listing_classifies path w p v :
  BoxPath_init path = Ok p ->
  is_dir (box_base p) = true ->
  result (Box.metadata self path w) = Ok v ->
  exists data entries items ms,
    v = JArr ms
    /\ json_body (fst (request w (folder_request self))) = Some data
    /\ getitem data "entries" = Ok entries
    /\ py_iter entries = Ok items
    /\ length ms = length items
    /\ forall (k : nat) item,
         items !! k = Some item ->
         exists ty m,
           getitem item "type" = Ok ty
           /\ ms !! k = Some m
           /\ (ty = JStr "folder" ->
               BoxFolderMetadata item (Box.folder self) = Ok m)
           /\ (ty <> JStr "folder" ->
               BoxFileMetadata item (Box.folder self) = Ok m).
Proof.
  intros Hp Hd. unfold Box.metadata. rewrite Hp, bind_lift_ok.
  unfold is_file. rewrite Hd. simpl. unfold Box._get_folder_meta.
  intros Hr.
  apply bind_result_ok in Hr as (resp & Hresp & Hr).
  apply make_request_result_ok in Hresp as [-> _].
  apply bind_result_ok in Hr as (data & Hdata & Hr).
  apply resp_json_ok in Hdata.
  apply bind_result_ok in Hr as (entries & He & Hr).
  apply bind_result_ok in Hr as (items & Hi & Hr).
  apply bind_result_ok in Hr as (ms & Hms & Hr).
  simpl in He, Hi, Hms, Hr. injection Hr as <-.
  destruct (folder_entries_spec _ _ Hms) as [Hlen Hk].
  by exists data, entries, items, ms.
Qed.

(** One entry without a [type] key makes the whole listing fail: no
    partial list is returned. *)
Theorem box_folder_listing_needs_types path w p data entries items k item e :
  BoxPath_init path = Ok p ->
  is_dir (box_base p) = true ->
  status (fst (request w (folder_request self))) = 200 ->
  json_body (fst (request w (folder_request self))) = Some data ->
  getitem data "entries" = Ok entries ->
  py_iter entries = Ok items ->
  items !! k = Some item ->
  getitem item "type" = Raise e ->
  exists e', result (Box.metadata self path w) = Raise e'
             /\ issued (Box.metadata self path w) = [folder_request self].
Proof.
  intros Hp Hd Hs Hj He Hi Hk Ht.
  destruct (metadata_wire self path w p Hp) as [Hwire _].
  unfold metadata_request, is_file in Hwire. rewrite Hd in Hwire.
  simpl in Hwire. rewrite Hwire.
  destruct (folder_entries_fails _ _ _ _ Hk Ht) as [e' He'].
  exists e'. split; [|done].
  unfold Box.metadata. rewrite Hp, bind_lift_ok.
  unfold is_file. rewrite Hd. simpl. unfold Box._get_folder_meta.
  rewrite bind_request_expected
    by (apply list_elem_of_singleton; exact Hs).
  cbn [result].
  change (mkRequest GET
            (Box.build_url self ["folders"; Box.folder self; "items"] [])
            (Box.default_headers self ++ [])%list None)
    with (folder_request self).
  unfold resp_json. rewrite Hj, bind_ret, He, bind_lift_ok, Hi, bind_lift_ok.
  by rewrite He', bind_lift_raise.
Qed.

(** [metadata] of a file path, on status 200: a body that is not JSON
    raises the decoder's [ValueError]; a decoded body that is falsy
    ([null], [false], [0], the empty string, list or object) raises
    [MetadataError] without a status code; any other decoded body is
    serialized as a file record.  One request is issued in every case. *)
Theorem box_file_metadata_empty_answer path w p :
  BoxPath_init path = Ok p ->
  is_file (box_base p) = true ->
  status (fst (request w (file_request self (_id p)))) = 200 ->
  let resp := fst (request w (file_request self (_id p))) in
  let out := Box.metadata self path w in
  issued out = [file_request self (_id p)]
  /\ (json_body resp = None -> result out = Raise (mkExn ValueError None))
  /\ (forall data, json_body resp = Some data -> truthy data = false ->
        result out = Raise (mkExn MetadataError None))
  /\ (forall data, json_body resp = Some data -> truthy data = true ->
        result out = BoxFileMetadata data (Box.folder self)).
Proof.
  intros Hp Hf Hs resp out. subst out.
  destruct (metadata_wire self path w p Hp) as [Hwire _].
  unfold metadata_request in Hwire. rewrite Hf in Hwire.
  split; [done|].
  unfold Box.metadata. rewrite Hp, bind_lift_ok, Hf.
  unfold Box._get_file_meta.
  rewrite bind_request_expected
    by (apply list_elem_of_singleton; exact Hs).
  cbn [result].
  change (mkRequest GET (Box.build_url self ["files"; _id p] [])
            (Box.default_headers self ++ [])%list None)
    with (file_request self (_id p)).
  fold resp. unfold resp_json.
  split; [|split].
  - by intros ->.
  - intros data -> Ht. by rewrite bind_ret, Ht.
  - intros data -> Ht. by rewrite bind_ret, Ht.
Qed.

(** For a directory path the request behind [metadata] is the listing of
    the configured folder, whatever the path: two directory paths have the
    same [metadata] outcome.  So the probe of [delete] says nothing about
    the path's own token, and the DELETE for that token is issued whenever
    the folder listing goes through. *)
Theorem box_directory_probe_ignores_path path w p :
  BoxPath_init path = Ok p ->
  is_dir (box_base p) = true ->
  (forall path' p',
     BoxPath_init path' = Ok p' -> is_dir (box_base p') = true ->
     Box.metadata self path' w = Box.metadata self path w)
  /\ issued (Box.metadata self path w) = [folder_request self]
  /\ (forall meta,
        result (Box.metadata self path w) = Ok meta ->
        issued (Box.delete self path w)
        = [folder_request self; delete_request self (_id p)]).
Proof.
  intros Hp Hd.
  assert (Hwire : issued (Box.metadata self path w) = [folder_request self]).
  { destruct (metadata_wire self path w p Hp) as [Hwire _].
    unfold metadata_request, is_file in Hwire. by rewrite Hd in Hwire. }
  split; [|split; [done|]].
  - intros path' p' Hp' Hd'. unfold Box.metadata.
    rewrite Hp, Hp', !bind_lift_ok. unfold is_file. by rewrite Hd, Hd'.
  - intros meta Hm.
    rewrite (box_delete_unfold _ _ _ _ Hp).
    rewrite (BoxPath_init_str _ _ Hp).
    rewrite (bind_ok _ _ _ _ Hm). cbn [issued]. rewrite Hwire.
    rewrite bind_quiet_issued by quiet_steps.
    by rewrite make_request_issued.
Qed.

End BoxMetadataShapes.

Lemma box_folder_listing_classifies_witness :
  exists folder_record file_record,
    result (Box.metadata (H := Replay.session) Replay.box "/docs/"
              Replay.listing_script)
    = Ok (JArr [folder_record; file_record])
    /\ BoxFolderMetadata (Collaborators := Replay.session)
         (Replay.box_folder "3" "docs") "/11446498" = Ok folder_record
    /\ BoxFileMetadata (Collaborators := Replay.session)
         (Replay.box_file "7" "a.txt") "/11446498" = Ok file_record.
Proof.
  destruct (box_folder_listing_classifies (H := Replay.session) Replay.box
              "/docs/" Replay.listing_script _ _ eq_refl eq_refl eq_refl)
    as (data & entries & items & ms & Hv & Hj & He & Hi & Hlen & Hk).
  injection Hv as <-. injection Hj as <-.
  injection He as <-. injection Hi as <-.
  destruct (Hk 0%nat _ eq_refl) as (ty0 & m0 & Ht0 & Hm0 & Hfolder & _).
  destruct (Hk 1%nat _ eq_refl) as (ty1 & m1 & Ht1 & Hm1 & _ & Hfile).
  injection Ht0 as <-. injection Ht1 as <-.
  injection Hm0 as <-. injection Hm1 as <-.
  eexists _, _. split; [reflexivity|]. split.
  - by apply Hfolder.
  - by apply Hfile.
Defined.

Lemma box_folder_listing_needs_types_witness :
  exists e,
    result (Box.metadata (H := Replay.session) Replay.box "/docs/"
              Replay.untyped_listing_script) = Raise e
    /\ issued (Box.metadata (H := Replay.session) Replay.box "/docs/"
                 Replay.untyped_listing_script)
       = [folder_request Replay.box].
Proof.
  apply (box_folder_listing_needs_types (H := Replay.session) Replay.box
           "/docs/" Replay.untyped_listing_script _ _ _
           [Replay.box_folder "3" "docs"; JObj [("id", JStr "7")]]
           1%nat (JObj [("id", JStr "7")]) (mkExn KeyError None)
           eq_refl eq_refl eq_refl eq_refl eq_refl eq_refl eq_refl eq_refl).
Defined.

Lemma box_file_metadata_empty_answer_witness :
  result (Box.metadata (H := Replay.session) Replay.box "/7/a.txt"
            [Replay.answer_json 200 (JObj [])])
  = Raise (mkExn MetadataError None)
  /\ result (Box.metadata (H := Replay.session) Replay.box "/7/a.txt"
               [Replay.answer 200])
     = Raise (mkExn ValueError None).
Proof.
  split.
  - pose proof (box_file_metadata_empty_answer (H := Replay.session)
                  Replay.box "/7/a.txt" [Replay.answer_json 200 (JObj [])]
                  _ eq_refl eq_refl eq_refl) as Hw.
    cbv zeta in Hw. destruct Hw as (_ & _ & Hfalsy & _).
    by apply (Hfalsy (JObj [])).
  - pose proof (box_file_metadata_empty_answer (H := Replay.session)
                  Replay.box "/7/a.txt" [Replay.answer 200]
                  _ eq_refl eq_refl eq_refl) as Hw.
    cbv zeta in Hw. destruct Hw as (_ & Hnone & _).
    by apply Hnone.
Defined.

Lemma box_directory_probe_ignores_path_witness :
  Box.metadata (H := Replay.session) Replay.box "/other/"
    Replay.listing_script
  = Box.metadata (H := Replay.session) Replay.box "/docs/"
      Replay.listing_script
  /\ issued (Box.delete (H := Replay.session) Replay.box "/999/"
               Replay.listing_script)
     = [folder_request Replay.box; delete_request Replay.box "999"].
Proof.
  split.
  - destruct (box_directory_probe_ignores_path (H := Replay.session)
                Replay.box "/docs/" Replay.listing_script _
                eq_refl eq_refl) as (Hsame & _).
    by apply (Hsame "/other/" _ eq_refl).
  - destruct (box_directory_probe_ignores_path (H := Replay.session)
                Replay.box "/999/" Replay.listing_script _
                eq_refl eq_refl) as (_ & _ & Hdel).
    by eapply Hdel.
Defined.

(** ** Box: more on [upload] *)

Section BoxUploadEdges.
Context `{Collaborators}.
Variable self : Box.BoxProvider.

Lemma directory_metadata_is_list path w p v :
  BoxPath_init path = Ok p ->
  is_dir (box_base p) = true ->
  result (Box.metadata self path w) = Ok v ->
  exists ms, v = JArr ms.
Proof.
  intros Hp Hd. unfold Box.metadata. rewrite Hp, bind_lift_ok.
  unfold is_file. rewrite Hd. simpl. unfold Box._get_folder_meta. intros Hr.
  apply bind_result_ok in Hr as (resp & _ & Hr).
  apply bind_result_ok in Hr as (data & _ & Hr).
  apply bind_result_ok in Hr as (entries & _ & Hr).
  apply bind_result_ok in Hr as (items & _ & Hr).
  apply bind_result_ok in Hr as (ms & _ & Hr).
  simpl in Hr. injection Hr as <-. by exists ms.
Qed.

(** The probe of [upload] tells a missing file from nothing else: whatever
    status other than 200 the probe's request is answered with (a 401, a
    403, a 500 as much as a 404), the create-upload is sent next, and a
    result reports [created = true]. *)
Theorem box_upload_creates_on_any_probe_failure stream path w p ud :
  BoxPath_init (os_path_join (Box.folder self) path) = Ok p ->
  make_upload_data stream (_id p) (name (box_base p)) = Ok ud ->
  status (fst (request w (metadata_request self p))) <> 200 ->
  issued (Box.upload self stream path w)
  = [metadata_request self p; create_request self ud]
  /\ forall m c, result (Box.upload self stream path w) = Ok (m, c) ->
                 c = true.
Proof.
  intros Hp Hud Hs. pose proof (BoxPath_init_again _ _ Hp) as Hp'.
  destruct (metadata_wire self _ w _ Hp') as [Hwire _].
  pose proof (metadata_unexpected self _ w _ Hp' Hs) as Hprobe.
  rewrite (upload_unfold _ _ _ _ _ Hp), bind_attempt.
  rewrite Hprobe, Hwire. cbn [result final issued].
  rewrite decide_True by done. split.
  - rewrite bind_quiet_issued by apply upload_tail_quiet.
    rewrite bind_quiet_issued by quiet_steps.
    destruct (upload_create_wire self stream p ud
                (final (Box.metadata self (str (box_base p)) w)) Hud)
      as [-> _].
    done.
  - intros m c Hr.
    apply bind_result_ok in Hr as (dc & Hdc & Hr).
    apply upload_tail_flag in Hr as ->.
    apply bind_result_ok in Hdc as (d & _ & Hdc).
    simpl in Hdc. by injection Hdc as <-.
Qed.

(** An upload to a directory path whose folder listing goes through
    uploads nothing: the probe returns a list, reading its ['path'] raises
    [TypeError], and the listing is the only request that was sent. *)
Theorem box_upload_directory_path stream path w p meta :
  BoxPath_init (os_path_join (Box.folder self) path) = Ok p ->
  is_dir (box_base p) = true ->
  result (Box.metadata self (str (box_base p)) w) = Ok meta ->
  Box.upload self stream path w
  = mkOutcome (Raise (mkExn TypeError None))
              (final (Box.metadata self (str (box_base p)) w))
              [folder_request self].
Proof.
  intros Hp Hd Hm. pose proof (BoxPath_init_again _ _ Hp) as Hp'.
  destruct (metadata_wire self _ w _ Hp') as [Hwire _].
  unfold metadata_request, is_file in Hwire. rewrite Hd in Hwire.
  destruct (directory_metadata_is_list _ _ _ _ Hp' Hd Hm) as [ms ->].
  rewrite (upload_unfold _ _ _ _ _ Hp), bind_attempt.
  rewrite Hm, Hwire. reflexivity.
Qed.

(** Once the upload request is accepted, the result of [upload] is read
    off the body of the answer alone: a body that is not JSON raises
    [ValueError], a body without ['entries'] raises [KeyError], an empty
    list of entries raises [IndexError], and otherwise the first entry is
    serialized.  In each of these cases the upload request has been sent. *)
Theorem box_upload_answer_decides_result stream path w p ud e :
  BoxPath_init (os_path_join (Box.folder self) path) = Ok p ->
  make_upload_data stream (_id p) (name (box_base p)) = Ok ud ->
  let probe := Box.metadata self (str (box_base p)) w in
  let resp := fst (request (final probe) (create_request self ud)) in
  let out := Box.upload self stream path w in
  result probe = Raise e ->
  ekind e = MetadataError ->
  status resp ∈ [200; 201] ->
  issued out = (issued probe ++ [create_request self ud])%list
  /\ (json_body resp = None -> result out = Raise (mkExn ValueError None))
  /\ (forall data, json_body resp = Some data ->
        result out
        = rbind (first_entry_record self data) (fun m => Ok (m, true)))
  /\ (forall data, json_body resp = Some data ->
        getitem data "entries" = Raise (mkExn KeyError None) ->
        result out = Raise (mkExn KeyError None))
  /\ (forall data, json_body resp = Some data ->
        getitem data "entries" = Ok (JArr []) ->
        result out = Raise (mkExn IndexError None)).
Proof.
  intros Hp Hud probe resp out He Hk Hs. subst out.
  rewrite (upload_unfold _ _ _ _ _ Hp), bind_attempt. fold probe.
  rewrite He. cbn [result final issued]. rewrite decide_True by done.
  assert (Hiss : issued (bind (data <- Box._upload_create self stream p ;;
                               ret (data, true)) (upload_tail self)
                              (final probe))
                 = [create_request self ud]).
  { rewrite bind_quiet_issued by apply upload_tail_quiet.
    rewrite bind_quiet_issued by quiet_steps.
    by destruct (upload_create_wire self stream p ud (final probe) Hud)
      as [-> _]. }
  split; [by rewrite Hiss|].
  assert (Hbody : forall data, json_body resp = Some data ->
            result (bind (data <- Box._upload_create self stream p ;;
                          ret (data, true)) (upload_tail self) (final probe))
            = rbind (first_entry_record self data) (fun m => Ok (m, true))).
  { intros data Hj.
    assert (Hu : result (Box._upload_create self stream p (final probe))
                 = Ok data).
    { unfold Box._upload_create. rewrite Hud, bind_lift_ok.
      rewrite bind_request_expected by exact Hs. cbn [result].
      unfold resp_json.
      change (mkRequest POST
                (Box._build_upload_url self ["files"; "content"] [])
                (Box.default_headers self ++ Box.upload_headers ud)%list
                (Some (ud_stream ud))) with (create_request self ud).
      fold resp. by rewrite Hj. }
    erewrite result_bind_ok
      by (erewrite result_bind_ok by exact Hu; reflexivity).
    unfold upload_tail, first_entry_record. cbn [fst snd].
    destruct (getitem data "entries") as [entries|]; cbn [rbind];
      [rewrite bind_lift_ok | rewrite bind_lift_raise; reflexivity].
    destruct (getfirst entries) as [entry|]; cbn [rbind];
      [rewrite bind_lift_ok | rewrite bind_lift_raise; reflexivity].
    destruct (BoxFileMetadata entry (Box.folder self)); cbn [rbind];
      [rewrite bind_lift_ok | rewrite bind_lift_raise]; reflexivity. }
  split; [|split; [exact Hbody|split]].
  - intros Hj. apply bind_quiet_raise. apply bind_quiet_raise.
    unfold Box._upload_create. rewrite Hud, bind_lift_ok.
    rewrite bind_request_expected by exact Hs. cbn [result].
    unfold resp_json.
    change (mkRequest POST
              (Box._build_upload_url self ["files"; "content"] [])
              (Box.default_headers self ++ Box.upload_headers ud)%list
              (Some (ud_stream ud))) with (create_request self ud).
    fold resp. by rewrite Hj.
  - intros data Hj Hent. rewrite (Hbody _ Hj).
    unfold first_entry_record. by rewrite Hent.
  - intros data Hj Hent. rewrite (Hbody _ Hj).
    unfold first_entry_record. by rewrite Hent.
Qed.

End BoxUploadEdges.

Lemma box_upload_creates_on_any_probe_failure_witness :
  issued (Box.upload (H := Replay.session) Replay.box Replay.five_bytes
            "notes.txt" [Replay.answer 500; Replay.uploaded])
  = [file_request Replay.box "11446498";
     create_request Replay.box Replay.five_bytes_encoded].
Proof.
  by destruct (box_upload_creates_on_any_probe_failure (H := Replay.session)
                 Replay.box Replay.five_bytes "notes.txt"
                 [Replay.answer 500; Replay.uploaded] _ _ eq_refl eq_refl)
    as [Hi _]; [discriminate|].
Defined.

Lemma box_upload_directory_path_witness :
  Box.upload (H := Replay.session) Replay.box Replay.five_bytes "docs/"
    Replay.listing_script
  = mkOutcome (H := Replay.session) (Raise (mkExn TypeError None)) []
      [folder_request Replay.box].
Proof.
  by apply (box_upload_directory_path (H := Replay.session) Replay.box
              Replay.five_bytes "docs/" Replay.listing_script _
              (JArr [JObj [("kind", JStr "folder"); ("name", JStr "docs");
                           ("path", JStr "/3/docs")];
                     JObj [("kind", JStr "file"); ("name", JStr "a.txt");
                           ("path", JStr "/7/a.txt")]])
              eq_refl eq_refl eq_refl).
Defined.

Lemma box_upload_answer_decides_result_witness :
  result (Box.upload (H := Replay.session) Replay.box Replay.five_bytes
            "notes.txt" [Replay.answer 404; Replay.answer_json 201 (JObj [])])
  = Raise (mkExn KeyError None)
  /\ issued (Box.upload (H := Replay.session) Replay.box Replay.five_bytes
               "notes.txt"
               [Replay.answer 404; Replay.answer_json 201 (JObj [])])
     = [file_request Replay.box "11446498";
        create_request Replay.box Replay.five_bytes_encoded].
Proof.
  pose proof (box_upload_answer_decides_result (H := Replay.session)
                Replay.box Replay.five_bytes "notes.txt"
                [Replay.answer 404; Replay.answer_json 201 (JObj [])]
                _ _ (mkExn MetadataError (Some 404)) eq_refl eq_refl) as Hw.
  cbv zeta in Hw.
  destruct (Hw eq_refl eq_refl) as (Hi & _ & _ & Hkey & _).
  { apply list_elem_of_further, list_elem_of_here. }
  split; [|exact Hi]. by apply (Hkey (JObj [])).
Defined.

(** ** Box: the path that [upload] builds *)

Section BoxUploadPath.
Context `{Collaborators}.

Lemma split_slash_app a b :
  has_slash a = false ->
  split_slash (a +:+ "/" +:+ b)
  = (a, fst (split_slash b) :: snd (split_slash b)).
Proof.
  induction a as [|c a IH]; intros Ha.
  - change ("" +:+ "/" +:+ b) with (String slash b). simpl.
    by destruct (split_slash b).
  - simpl in Ha. apply orb_false_iff in Ha as [Hc Ha].
    rewrite append_cons. simpl. by rewrite (IH Ha), Hc.
Qed.

Lemma endswith_has_slash s : endswith_slash s = true -> has_slash s = true.
Proof.
  induction s as [|c s IH]; [done|]. simpl.
  destruct s as [|c' s].
  - intros ->. done.
  - intros Hs. rewrite (IH Hs). apply orb_true_r.
Qed.

Lemma os_path_join_relative fid n :
  has_slash fid = false -> fid <> "" -> startswith_slash n = false ->
  os_path_join ("/" +:+ fid) n = "/" +:+ fid +:+ "/" +:+ n.
Proof.
  intros Hf Hne Hn. unfold os_path_join. rewrite Hn.
  change ("/" +:+ fid) with (String slash fid).
  assert (endswith_slash (String slash fid) = false) as ->.
  { destruct fid as [|c fid]; [done|].
    change (endswith_slash (String slash (String c fid)))
      with (endswith_slash (String c fid)).
    destruct (endswith_slash (String c fid)) eqn:E; [|done].
    apply endswith_has_slash in E. congruence. }
  reflexivity.
Qed.

Lemma box_upload_path_token fid n p :
  has_slash fid = false -> fid <> "" -> startswith_slash n = false ->
  BoxPath_init (os_path_join ("/" +:+ fid) n) = Ok p ->
  str (box_base p) = "/" +:+ fid +:+ "/" +:+ n /\ _id p = fid.
Proof.
  intros Hf Hne Hn. rewrite (os_path_join_relative _ _ Hf Hne Hn). intros Hp.
  split; [exact (BoxPath_init_str _ _ Hp)|].
  revert Hp. unfold BoxPath_init.
  destruct (WaterButlerPath_init _ false false) as [base|]; [|done].
  cbn [rbind].
  destruct (String.eqb ("/" +:+ fid +:+ "/" +:+ n) "/") eqn:E.
  { apply String.eqb_eq in E. destruct fid; [done|]. discriminate E. }
  cbn [negb]. unfold split.
  change ("/" +:+ fid +:+ "/" +:+ n)
    with (String slash (fid +:+ "/" +:+ n)).
  cbn [split_slash]. rewrite (split_slash_app _ _ Hf).
  rewrite Ascii.eqb_refl. cbn [second rbind]. by intros [= <-].
Qed.

(** The first request of [upload] is the probe for the path it built. *)
Lemma box_upload_probe_first self stream path w p :
  BoxPath_init (os_path_join (Box.folder self) path) = Ok p ->
  exists rest,
    issued (Box.upload self stream path w) = metadata_request self p :: rest.
Proof.
  intros Hp. pose proof (BoxPath_init_again _ _ Hp) as Hp'.
  destruct (metadata_wire self _ w _ Hp') as [Hwire _].
  rewrite (upload_unfold _ _ _ _ _ Hp), bind_attempt.
  cbn [issued]. rewrite Hwire. by eexists.
Qed.

(** How [upload] builds its path with [os.path.join], and what that does
    to its requests.  A path that starts with a separator replaces the
    configured folder altogether: [upload] probes that path itself.  A
    relative name under a folder setting of the form [/<id>] gives the
    path [/<id>/<name>], whose token is the folder's [<id>]: the probe
    that [upload] sends first asks [files/<id>] (for a file path), and
    when the probe is answered with anything but 200 the create-upload
    that follows carries the multipart data built with [<id>] as parent
    identifier. *)
Theorem box_upload_path_building self stream w :
  (forall path,
     startswith_slash path = true ->
     os_path_join (Box.folder self) path = path
     /\ forall p, BoxPath_init path = Ok p ->
          exists rest,
            issued (Box.upload self stream path w)
            = metadata_request self p :: rest)
  /\ (forall fid n p,
        Box.folder self = "/" +:+ fid ->
        has_slash fid = false -> fid <> "" ->
        startswith_slash n = false ->
        BoxPath_init (os_path_join (Box.folder self) n) = Ok p ->
        str (box_base p) = "/" +:+ fid +:+ "/" +:+ n
        /\ _id p = fid
        /\ (is_file (box_base p) = true ->
            metadata_request self p = file_request self fid
            /\ exists rest,
                 issued (Box.upload self stream n w)
                 = file_request self fid :: rest)
        /\ (forall ud,
              make_upload_data stream fid (name (box_base p)) = Ok ud ->
              status (fst (request w (metadata_request self p))) <> 200 ->
              issued (Box.upload self stream n w)
              = [metadata_request self p; create_request self ud])).
Proof.
  split.
  - intros path Hs.
    assert (Hjoin : os_path_join (Box.folder self) path = path)
      by (unfold os_path_join; by rewrite Hs).
    split; [exact Hjoin|]. intros p Hp.
    apply box_upload_probe_first. by rewrite Hjoin.
  - intros fid n p Hfolder Hf Hne Hn Hp.
    assert (Htok : str (box_base p) = "/" +:+ fid +:+ "/" +:+ n
                   /\ _id p = fid).
    { apply box_upload_path_token; try done. by rewrite <- Hfolder. }
    destruct Htok as [Hstr Hid].
    split; [done|]. split; [done|]. split.
    + intros Hfile.
      assert (Hreq : metadata_request self p = file_request self fid)
        by (unfold metadata_request; by rewrite Hfile, Hid).
      split; [exact Hreq|]. rewrite <- Hreq.
      by apply box_upload_probe_first.
    + intros ud Hud Hs. rewrite <- Hid in Hud.
      by destruct (box_upload_probe_caught self stream n w p ud Hp Hud Hs)
        as (_ & Hi & _).
Qed.

End BoxUploadPath.

Lemma box_upload_path_building_witness :
  issued (Box.upload (H := Replay.session) Replay.box Replay.five_bytes
            "notes.txt" Replay.create_script)
  = [file_request Replay.box "11446498";
     create_request Replay.box Replay.five_bytes_encoded]
  /\ exists rest,
       issued (Box.upload (H := Replay.session) Replay.box Replay.five_bytes
                 "/7/a.txt" Replay.create_script)
       = file_request Replay.box "7" :: rest.
Proof.
  destruct (box_upload_path_building (H := Replay.session) Replay.box
              Replay.five_bytes Replay.create_script) as [Habs Hrel].
  split.
  - assert (Hne : "11446498" <> "") by discriminate.
    destruct (Hrel "11446498" "notes.txt" _ eq_refl eq_refl Hne
                eq_refl eq_refl) as (_ & _ & _ & Hcreate).
    apply Hcreate; [reflexivity|discriminate].
  - destruct (Habs "/7/a.txt" eq_refl) as [_ Hprobe].
    exact (Hprobe _ eq_refl).
Defined.

(** ** OwnCloud: answers that are not the expected tree *)

Section OwnCloudTrees.
Context `{Collaborators}.
Variable self : OwnCloud.OwnCloudProvider.

Lemma metadata_file_after_207 p w :
  status (fst (request w (propfind_request self p))) = 207 ->
  result (OwnCloud._metadata_file self p w)
  = rbind (fromstring (raw_body (fst (request w (propfind_request self p)))))
      (fun tree =>
         rbind (OwnCloud.file_attrs_of tree)
               (OwnCloudFileMetadata (path_attr p))).
Proof.
  intros Hs. unfold OwnCloud._metadata_file.
  rewrite bind_request_expected
    by (apply list_elem_of_singleton; exact Hs).
  cbn [result]. unfold resp_read. rewrite bind_ret.
  change (mkRequest PROPFIND
            (UrlStr (OwnCloud.webdav_url self +:+ path_attr p))
            (OwnCloud.default_headers self ++ [])%list None)
    with (propfind_request self p).
  destruct (fromstring _) as [tree|]; cbn [rbind];
    [rewrite bind_lift_ok | by rewrite bind_lift_raise].
  destruct (OwnCloud.file_attrs_of tree); cbn [rbind];
    [by rewrite bind_lift_ok | by rewrite bind_lift_raise].
Qed.

(** A 207 answer that is not the expected tree fails after the PROPFIND
    was sent, each shape with its own exception: a body the parser refuses
    raises the parser's exception; a root without children raises
    [IndexError]; a first child without a [{DAV:}propstat] child raises
    [AttributeError]; a first [{DAV:}propstat] without a [{DAV:}prop] child
    raises [TypeError]. *)
Theorem owncloud_metadata_malformed_tree p w :
  status (fst (request w (propfind_request self p))) = 207 ->
  let body := raw_body (fst (request w (propfind_request self p))) in
  let out := OwnCloud._metadata_file self p w in
  issued out = [propfind_request self p]
  /\ (forall e, fromstring body = Raise e -> result out = Raise e)
  /\ (forall tree,
        fromstring body = Ok tree ->
        (echildren tree = [] ->
         result out = Raise (mkExn IndexError None))
        /\ (forall response,
              head (echildren tree) = Some response ->
              tagged "{DAV:}propstat" (echildren response) = [] ->
              result out = Raise (mkExn AttributeError None))
        /\ (forall response propstat,
              head (echildren tree) = Some response ->
              head (tagged "{DAV:}propstat" (echildren response))
                = Some propstat ->
              tagged "{DAV:}prop" (echildren propstat) = [] ->
              result out = Raise (mkExn TypeError None))).
Proof.
  intros Hs body out. subst out.
  rewrite (metadata_file_after_207 _ _ Hs). fold body.
  split.
  { unfold OwnCloud._metadata_file.
    rewrite bind_quiet_issued by (unfold resp_read; quiet_steps).
    by rewrite make_request_issued. }
  split; [by intros e ->|].
  intros tree ->. cbn [rbind].
  unfold OwnCloud.file_attrs_of, OwnCloud.first_child.
  split; [by intros ->|]. split.
  - intros response Hr Hps.
    destruct (echildren tree) as [|c cs]; [done|].
    injection Hr as ->. cbn [rbind]. by rewrite find_tagged, Hps.
  - intros response propstat Hr Hps Hp.
    destruct (echildren tree) as [|c cs]; [done|].
    injection Hr as ->. cbn [rbind].
    by rewrite find_tagged, Hps, find_tagged, Hp.
Qed.

End OwnCloudTrees.

Section BoxRevisionsEdges.
Context `{Collaborators}.
Variable self : Box.BoxProvider.

(** [revisions] of a directory path cannot succeed: when the version
    listing and the folder listing both go through, stamping the list that
    [metadata] returned raises [TypeError], after both requests. *)
Theorem box_revisions_directory_path path w p data meta :
  BoxPath_init path = Ok p ->
  is_dir (box_base p) = true ->
  let listing := versions_request self (_id p) in
  let probe := Box.metadata self (str (box_base p))
                 (snd (request w listing)) in
  status (fst (request w listing)) = 200 ->
  json_body (fst (request w listing)) = Some data ->
  result probe = Ok meta ->
  Box.revisions self path w
  = mkOutcome (Raise (mkExn TypeError None)) (final probe)
              [listing; folder_request self].
Proof.
  intros Hp Hd listing probe Hs Hj Hm.
  pose proof (BoxPath_init_again _ _ Hp) as Hp'.
  destruct (metadata_wire self _ (snd (request w listing)) _ Hp')
    as [Hwire _].
  unfold metadata_request, is_file in Hwire. rewrite Hd in Hwire.
  destruct (directory_metadata_is_list self _ _ _ _ Hp' Hd Hm) as [ms Hms].
  unfold Box.revisions. rewrite Hp, bind_lift_ok. cbv zeta.
  rewrite bind_request_expected
    by (apply list_elem_of_singleton; exact Hs).
  change (mkRequest GET (Box.build_url self ["files"; _id p; "versions"] [])
            (Box.default_headers self ++ [])%list None) with listing.
  unfold resp_json. rewrite Hj, bind_ret.
  fold probe in Hm, Hwire.
  rewrite (bind_ok _ _ _ _ Hm). fold probe. rewrite Hwire, Hms.
  reflexivity.
Qed.

End BoxRevisionsEdges.

Lemma owncloud_metadata_malformed_tree_witness :
  result (OwnCloud._metadata_file (H := Replay.childless) Replay.owncloud
            (mkWaterButlerPath "/a.txt" false true) [Replay.answer 207])
  = Raise (mkExn IndexError None)
  /\ result (OwnCloud._metadata_file (H := Replay.session) Replay.owncloud
               (mkWaterButlerPath "/a.txt" false true) [Replay.answer 207])
     = Raise (mkExn ValueError None).
Proof.
  split.
  - pose proof (owncloud_metadata_malformed_tree (H := Replay.childless)
                  Replay.owncloud (mkWaterButlerPath "/a.txt" false true)
                  [Replay.answer 207] eq_refl) as Hw.
    cbv zeta in Hw. destruct Hw as (_ & _ & Htree).
    destruct (Htree _ eq_refl) as (Hempty & _). by apply Hempty.
  - pose proof (owncloud_metadata_malformed_tree (H := Replay.session)
                  Replay.owncloud (mkWaterButlerPath "/a.txt" false true)
                  [Replay.answer 207] eq_refl) as Hw.
    cbv zeta in Hw. destruct Hw as (_ & Hparse & _). by apply Hparse.
Defined.

Lemma box_revisions_directory_path_witness :
  Box.revisions (H := Replay.session) Replay.box "/docs/"
    (Replay.answer_json 200 (JObj [("entries", JArr [])])
     :: Replay.listing_script)
  = mkOutcome (H := Replay.session) (Raise (mkExn TypeError None)) []
      [versions_request Replay.box "docs"; folder_request Replay.box].
Proof.
  by apply (box_revisions_directory_path (H := Replay.session) Replay.box
              "/docs/"
              (Replay.answer_json 200 (JObj [("entries", JArr [])])
               :: Replay.listing_script) _ _ _ eq_refl eq_refl eq_refl
              eq_refl eq_refl).
Defined.

(** ** The remaining branches *)

Section RemainingBranches.
Context `{Collaborators}.

(** When the multipart encoder refuses the stream, Box's [upload] has sent
    its probe and nothing else: after a probe that raised [MetadataError],
    and after a probe that returned a record with a usable path, the
    encoder's exception is what [upload] raises. *)
Theorem box_upload_encoder_failure self stream path w p e :
  BoxPath_init (os_path_join (Box.folder self) path) = Ok p ->
  make_upload_data stream (_id p) (name (box_base p)) = Raise e ->
  let probe := Box.metadata self (str (box_base p)) w in
  let out := Box.upload self stream path w in
  (forall e', result probe = Raise e' -> ekind e' = MetadataError ->
     out = mkOutcome (Raise e) (final probe) (issued probe))
  /\ (forall meta mp q,
        result probe = Ok meta ->
        getitem meta "path" = Ok (JStr mp) ->
        BoxPath_init mp = Ok q ->
        out = mkOutcome (Raise e) (final probe) (issued probe)).
Proof.
  intros Hp He probe out. subst out.
  rewrite (upload_unfold _ _ _ _ _ Hp), bind_attempt. fold probe. split.
  - intros e' Hr Hk. rewrite Hr, decide_True by done.
    rewrite (bind_stops _ _ _ e).
    { cbn [result final issued]. by rewrite app_nil_r. }
    apply bind_stops. unfold Box._upload_create.
    by rewrite He, bind_lift_raise.
  - intros meta mp q Hr Hmp Hq. rewrite Hr.
    rewrite (bind_stops _ _ _ e).
    { cbn [result final issued]. by rewrite app_nil_r. }
    apply bind_stops. unfold Box._upload_update.
    rewrite Hmp, bind_lift_ok. unfold Box.BoxPath_of.
    by rewrite Hq, bind_lift_ok, He, bind_lift_raise.
Qed.

(** OwnCloud's [download] of an accepted file path that is answered 200
    returns the reader of exactly that response, after a single GET for
    the WebDAV root followed by the path's [path] attribute. *)
Theorem owncloud_download_file self path w p :
  OwnCloudPath_init path = Ok p ->
  is_file p = true ->
  status (fst (request w (owncloud_get_request self p))) = 200 ->
  OwnCloud.download self path w
  = mkOutcome
      (Ok (ResponseStreamReader (fst (request w (owncloud_get_request self p)))))
      (snd (request w (owncloud_get_request self p)))
      [owncloud_get_request self p].
Proof.
  intros Hp Hf Hs. unfold OwnCloud.download.
  rewrite Hp, bind_lift_ok, Hf. cbn [negb].
  rewrite bind_request_expected
    by (apply list_elem_of_singleton; exact Hs).
  reflexivity.
Qed.

End RemainingBranches.

Lemma box_upload_encoder_failure_witness :
  Box.upload (H := Replay.session) Replay.box (mkStream None "hello")
    "notes.txt" Replay.create_script
  = mkOutcome (H := Replay.session) (Raise (mkExn ValueError None))
      [Replay.uploaded] [file_request Replay.box "11446498"].
Proof.
  pose proof (box_upload_encoder_failure (H := Replay.session) Replay.box
                (mkStream None "hello") "notes.txt" Replay.create_script
                _ _ eq_refl eq_refl) as Hw.
  cbv zeta in Hw. destruct Hw as [Hcreate _].
  by apply (Hcreate (mkExn MetadataError (Some 404))).
Defined.

Lemma owncloud_download_file_witness :
  OwnCloud.download (H := Replay.session) Replay.owncloud "/a.txt"
    [Replay.answer 200]
  = mkOutcome (H := Replay.session)
      (Ok (ResponseStreamReader (Replay.answer 200))) []
      [owncloud_get_request (H := Replay.session) Replay.owncloud
         (mkWaterButlerPath "/a.txt" false true)].
Proof.
  by apply (owncloud_download_file (H := Replay.session) Replay.owncloud
              "/a.txt" [Replay.answer 200] _ eq_refl eq_refl eq_refl).
Defined.
